(** * SQL_LLM_LangChain: a shallow embedding of the question-to-SQL pipeline

    The development follows [LLM-SQL/SQL_LLM_LangChain.py].  Python text is a
    sequence of Unicode code points, so a [str] is a list of code points; the
    script's effects (file, database, model service, console) are threaded
    through an explicit state with an event log.  Definitions come first, then
    the theorems about them. *)

From Stdlib Require Import List ZArith NArith Bool Lia String Ascii DecimalString.
Import ListNotations.

Set Implicit Arguments.

(* ===================================================================== *)
(** * Python [str] *)
(* ===================================================================== *)

Module PyStr.

(** A code point of a Python [str] (0 .. 0x10FFFF). *)
Definition char := N.

(** A Python [str]. *)
Definition str := list char.

(** A literal of the source, written as a Rocq string of ASCII characters. *)
Definition lit (s : string) : str :=
  map N_of_ascii (list_ascii_of_string s).
Arguments lit s%_string.

(** The one-character strings the source writes with an escape. *)
Definition newline : str := [10%N].
Definition dquote : str := [34%N].

(** [str.isspace] on one code point: the code points CPython's
    [_PyUnicode_IsWhitespace] accepts, which are the ones [str.strip()]
    removes. *)
Definition isspace (c : char) : bool :=
  ((9 <=? c) && (c <=? 13)
   || (28 <=? c) && (c <=? 32)
   || (c =? 133) || (c =? 160) || (c =? 5760)
   || (8192 <=? c) && (c <=? 8202)
   || (c =? 8232) || (c =? 8233) || (c =? 8239) || (c =? 8287)
   || (c =? 12288))%N.

(** Remove the longest prefix of characters satisfying [p]. *)
Fixpoint dropwhile (p : char -> bool) (s : str) : str :=
  match s with
  | [] => []
  | c :: s' => if p c then dropwhile p s' else s
  end.

(** [s.lstrip()], [s.rstrip()] and [s.strip()] with no argument. *)
Definition lstrip (s : str) : str := dropwhile isspace s.
Definition rstrip (s : str) : str := rev (dropwhile isspace (rev s)).
Definition strip (s : str) : str := rstrip (lstrip s).

(** Equality of two strings, [a == b]. *)
Fixpoint eqb (a b : str) : bool :=
  match a, b with
  | [], [] => true
  | x :: a', y :: b' => (x =? y)%N && eqb a' b'
  | _, _ => false
  end.

(** [s.startswith(p)]. *)
Fixpoint startswith (s p : str) {struct p} : bool :=
  match p, s with
  | [], _ => true
  | _ :: _, [] => false
  | x :: p', c :: s' => (c =? x)%N && startswith s' p'
  end.

(** [s.endswith(p)]. *)
Definition endswith (s p : str) : bool := startswith (rev s) (rev p).

(** The truth value of a string in a condition: non-empty. *)
Definition truthy (s : str) : bool :=
  match s with [] => false | _ :: _ => true end.

(** A slice bound as Python clamps it: a negative bound counts from the end. *)
Definition clamp (len i : Z) : Z :=
  if (i <? 0)%Z then Z.max 0 (len + i) else Z.min i len.

(** [s[i:j]]. *)
Definition slice (s : str) (i j : Z) : str :=
  let len := Z.of_nat (List.length s) in
  let lo := clamp len i in
  let hi := clamp len j in
  firstn (Z.to_nat (hi - lo)) (skipn (Z.to_nat lo) s).

(** [s[:j]]. *)
Definition slice_to (s : str) (j : Z) : str := slice s 0 j.

(** [s * n] for a string [s]. *)
Fixpoint repeat_str (s : str) (n : nat) : str :=
  match n with
  | O => []
  | S n' => s ++ repeat_str s n'
  end.

(** [str(n)] for an integer. *)
Definition of_Z (z : Z) : str := lit (NilZero.string_of_int (Z.to_int z)).

End PyStr.

Import PyStr.

(* ===================================================================== *)
(** * Response sanitizer (process_question, lines 152 and 156-159) *)
(* ===================================================================== *)

(** The triple-backtick fence and the fence tagged [sql]. *)
Definition fence : str := lit "```".
Definition fence_sql : str := lit "```sql".

(** Lines 156-159: remove the markdown code block markers if present. *)
Definition strip_fences (sql_query : str) : str :=
  if truthy sql_query && startswith sql_query fence_sql
     && endswith sql_query fence
  then strip (slice sql_query 6 (-3))
  else if truthy sql_query && startswith sql_query fence
          && endswith sql_query fence
  then strip (slice sql_query 3 (-3))
  else sql_query.

(** The whole sanitization step applied to the raw completion: the [.strip()]
    of line 152 followed by the fence removal. *)
Definition sanitize (raw : str) : str := strip_fences (strip raw).

(* ===================================================================== *)
(** * Exceptions and answers of the outside world *)
(* ===================================================================== *)

(** The exception classes the script distinguishes in its handlers.  Every
    one of them derives from [Exception]; what the outside raises is an
    [Exception], and [SystemExit] is only ever produced by [exit], which the
    outcome of a run records apart. *)
Inductive exc_class : Type :=
  | FileNotFoundError
  | SqliteError          (* sqlite3.Error and its subclasses *)
  | ValueError
  | OtherException.      (* any other subclass of Exception *)

(** An exception instance: its class and [str(e)]. *)
Record exception : Type := Exc { exc_class_of : exc_class; exc_str : str }.

(** [except Exception] *)
Definition is_Exception (e : exception) : bool :=
  match exc_class_of e with
  | FileNotFoundError | SqliteError | ValueError | OtherException => true
  end.

(** [except FileNotFoundError] *)
Definition is_FileNotFoundError (e : exception) : bool :=
  match exc_class_of e with FileNotFoundError => true | _ => false end.

(** [except sqlite3.Error] *)
Definition is_sqlite3_Error (e : exception) : bool :=
  match exc_class_of e with SqliteError => true | _ => false end.

(** What a call into a library or the operating system gives back: a value,
    or an exception described by [E]. *)
Inductive answer (E A : Type) : Type :=
  | Returns (a : A)
  | Raises (e : E).
Arguments Returns {E A} a.
Arguments Raises {E A} e.

(** The message of a [sqlite3.Error]: the sqlite3 module reports database
    failures through this class. *)
Definition sqlite3_Error := str.

(* ===================================================================== *)
(** * Schema introspection (display_schema, lines 67-87) *)
(* ===================================================================== *)

(** A row of [PRAGMA table_info]: (cid, name, type, notnull, dflt_value, pk).
    [column[1]] is [col_name], [column[2]] is [col_type]. *)
Record column_row : Type := {
  cid : Z;
  col_name : str;
  col_type : str;
  notnull : Z;
  dflt_value : option str;
  pk : Z
}.

(** The module-global [cursor].  [execute(sql)] followed by [fetchall()] is
    one question to the database; the first field answers the query on
    [sqlite_master] with [row[0]] of every row, the second a
    [PRAGMA table_info]. *)
Record Cursor : Type := {
  fetch_names : str -> answer exception (list str);
  fetch_columns : str -> answer exception (list column_row)
}.

Definition select_tables_sql : str :=
  lit "SELECT name FROM sqlite_master WHERE type='table';".

(** Line 81: f"PRAGMA table_info({table})" *)
Definition pragma_sql (table : str) : str :=
  lit "PRAGMA table_info(" ++ table ++ lit ")".

(** Line 78: the filter of the list comprehension. *)
Definition user_tables (names : list str) : list str :=
  filter (fun name => negb (eqb name (lit "sqlite_sequence"))) names.

(** Line 80: f"table: {table}\nColumns:\n" *)
Definition table_header (table : str) : str :=
  lit "table: " ++ table ++ newline ++ lit "Columns:" ++ newline.

(** Line 83: f"  - {column[1]} ({column[2]})\n" *)
Definition column_line (column : column_row) : str :=
  lit "  - " ++ col_name column ++ lit " (" ++ col_type column ++ lit ")"
  ++ newline.

(** Lines 82-83: the inner loop. *)
Definition add_columns (columns : list column_row) (schema : str) : str :=
  fold_left (fun schema column => schema ++ column_line column) columns schema.

(** Lines 79-84: the outer loop.  It yields the text accumulated in [schema]
    and the exception that interrupted it, if any. *)
Fixpoint add_tables (cursor : Cursor) (tables : list str) (schema : str)
  : str * option exception :=
  match tables with
  | [] => (schema, None)
  | table :: rest =>
      let schema := schema ++ table_header table in
      match fetch_columns cursor (pragma_sql table) with
      | Raises e => (schema, Some e)
      | Returns columns =>
          let schema := add_columns columns schema in
          add_tables cursor rest (schema ++ newline)
      end
  end.

(** Line 86: f"Error extracting schema: {e}\n" *)
Definition schema_error (e : exception) : str :=
  lit "Error extracting schema: " ++ exc_str e ++ newline.

(** [display_schema(conn)].  The body never reads [conn]; it reads the
    module-global [cursor], here the second argument. *)
Definition display_schema {A : Type} (conn : A) (cursor : Cursor) : str :=
  let schema : str := [] in
  match fetch_names cursor select_tables_sql with
  | Raises e => schema ++ schema_error e
  | Returns names =>
      let tables := user_tables names in
      match add_tables cursor tables schema with
      | (schema, None) => schema
      | (schema, Some e) => schema ++ schema_error e
      end
  end.

(** The text of one table when its columns are known: header, one line per
    column, an empty line. *)
Definition table_block (table : str) (columns : list column_row) : str :=
  table_header table ++ List.concat (map column_line columns) ++ newline.

(** The header line and the column line without their line feed. *)
Definition header_text (table : str) : str := lit "table: " ++ table.

Definition column_text (column : column_row) : str :=
  lit "  - " ++ col_name column ++ lit " (" ++ col_type column ++ lit ")".

(** How the enumeration can fail, with the text gathered until then: on the
    list of tables, or on the columns of one table after the tables [done]
    went through. *)
Inductive enumeration_fails (cursor : Cursor) : str -> exception -> Prop :=
  | fails_on_tables e :
      fetch_names cursor select_tables_sql = Raises e ->
      enumeration_fails cursor [] e
  | fails_on_columns names done table rest columns e :
      fetch_names cursor select_tables_sql = Returns names ->
      user_tables names = done ++ table :: rest ->
      Forall2 (fun t cols => fetch_columns cursor (pragma_sql t) = Returns cols)
              done columns ->
      fetch_columns cursor (pragma_sql table) = Raises e ->
      enumeration_fails cursor
        (List.concat (map (fun tc => table_block (fst tc) (snd tc))
                     (combine done columns))
         ++ table_header table)
        e.

(** Reading the rendered schema back: its lines and the two kinds of line
    the schema description is made of. *)
Fixpoint lines_from (cur : str) (s : str) : list str :=
  match s with
  | [] => match cur with [] => [] | _ :: _ => [rev cur] end
  | c :: s' => if (c =? 10)%N then rev cur :: lines_from [] s'
               else lines_from (c :: cur) s'
  end.

(** The lines of a text: the runs of characters that line feeds end. *)
Definition lines (s : str) : list str := lines_from [] s.

Definition is_table_header (line : str) : bool := startswith line (lit "table:").
Definition is_column_line (line : str) : bool := startswith line (lit "  - ").

Definition count_lines (p : str -> bool) (s : str) : nat :=
  List.length (filter p (lines s)).

(** A text that holds no line feed. *)
Definition single_line (s : str) : bool := forallb (fun c => negb (c =? 10)%N) s.

(** A column whose name and declared type hold no line feed. *)
Definition single_line_column (c : column_row) : Prop :=
  single_line (col_name c) = true /\ single_line (col_type c) = true.

(** The specification counts the user tables, "internal bookkeeping tables
    excluded".  SQLite keeps the names that begin with [sqlite_] for its own
    tables (sqlite_sequence, sqlite_stat1, ...).  The code does not make this
    test, it compares with one name; the two definitions below only serve to
    state the specification's count next to the code's. *)
Definition is_internal_table (name : str) : bool :=
  startswith name (lit "sqlite_").

Definition spec_user_tables (names : list str) : list str :=
  filter (fun name => negb (is_internal_table name)) names.

(** The tables of a database as they are: each name with its own columns. *)
Definition catalog : Type := list (str * list column_row).

(** The number of columns of all the tables of a catalog. *)
Definition catalog_columns (db : catalog) : nat :=
  list_sum (map (fun tc => List.length (snd tc)) db).

(* ===================================================================== *)
(** * The script's effects *)
(* ===================================================================== *)

(** The result half of what [process_question] returns: a DataFrame or an
    error message. *)
Inductive result (DataFrame : Type) : Type :=
  | Frame (df : DataFrame)
  | Message (text : str).
Arguments Message {DataFrame} text.

(** What the script does to the outside, in the order it does it. *)
Inductive event (DataFrame : Type) : Type :=
  | EvPrint (text : str)               (* print(text) *)
  | EvDisplay (df : DataFrame)         (* display(result) *)
  | EvSetEnv (name value : str)        (* os.environ[name] = value *)
  | EvInvoke (prompt : str)            (* chain.invoke(...) reaches the model *)
  | EvReadSql (sql : str).             (* pd.read_sql_query(sql, conn) *)
Arguments EvPrint {DataFrame} text.
Arguments EvSetEnv {DataFrame} name value.
Arguments EvInvoke {DataFrame} prompt.
Arguments EvReadSql {DataFrame} sql.

(** How a piece of the script ends: normally, with an exception nobody
    caught so far, or in [exit(code)]. *)
Inductive outcome (A : Type) : Type :=
  | Done (a : A)
  | Uncaught (e : exception)
  | SysExit (code : Z).
Arguments Uncaught {A} e.
Arguments SysExit {A} code.

Section Script.

(** [St] is the state of what lies outside the process and changes from one
    call to the next (the model service, the content of the database);
    [DataFrame] is pandas' table, which the script only passes on. *)
Variables St DataFrame : Type.

(** The outside world.  The steps of the set-up are each done once and are
    given by their answer; the two calls of [process_question] are repeated
    and go through the state.  A failing sqlite3 call raises a
    [sqlite3.Error]; [load_dotenv()] merges the .env file into the
    environment and [getenv] is the lookup after it. *)
Record World : Type := {
  (* open(path, 'r', encoding='utf-8') and f.read() *)
  open_read : str -> answer exception str;
  (* sqlite3.connect(db_path), cursor.executescript(script), commit *)
  executescript : str -> str -> answer sqlite3_Error unit;
  (* sqlite3.connect(db_path), SELECT COUNT( * ) FROM Artist, fetchone()[0] *)
  count_artist : str -> answer sqlite3_Error Z;
  (* sqlite3.connect(path) and conn.cursor() *)
  connect : str -> answer sqlite3_Error Cursor;
  (* os.getenv(name) once load_dotenv() has merged the .env file *)
  getenv : str -> option str;
  (* prompt | llm | output_parser, on the formatted prompt *)
  chain_llm : str -> St -> answer exception str * St;
  (* pd.read_sql_query(sql, conn) *)
  read_sql_query : str -> St -> answer exception DataFrame * St
}.

Variable w : World.

(** The state the script runs in. *)
Record sys : Type := { ext : St; log : list (event DataFrame) }.

(** The state after further events. *)
Definition logged (s : sys) (evs : list (event DataFrame)) : sys :=
  {| ext := ext s; log := log s ++ evs |}.

Definition M (A : Type) : Type := sys -> outcome A * sys.

Definition ret {A : Type} (a : A) : M A := fun s => (Done a, s).

Definition bind {A B : Type} (m : M A) (k : A -> M B) : M B :=
  fun s =>
    match m s with
    | (Done a, s') => k a s'
    | (Uncaught e, s') => (Uncaught e, s')
    | (SysExit code, s') => (SysExit code, s')
    end.

Notation "x <- m ;; k" := (bind m (fun x => k))
  (at level 61, m at next level, right associativity).
Notation "m ;; k" := (bind m (fun _ => k))
  (at level 61, right associativity).

(** [raise e] *)
Definition raise {A : Type} (e : exception) : M A := fun s => (Uncaught e, s).

(** [exit(code)] *)
Definition exit {A : Type} (code : Z) : M A := fun s => (SysExit code, s).

(** [try: body  except <class> as e: handler e] *)
Definition try_except {A : Type} (body : M A) (catches : exception -> bool)
    (handler : exception -> M A) : M A :=
  fun s =>
    match body s with
    | (Uncaught e, s') =>
        if catches e then handler e s' else (Uncaught e, s')
    | r => r
    end.

Definition emit (ev : event DataFrame) : M unit :=
  fun s => (Done tt, logged s [ev]).

Definition print (text : str) : M unit := emit (EvPrint text).
Definition display (df : DataFrame) : M unit := emit (EvDisplay df).

(** A call answered by the world, outside the state. *)
Definition call {A : Type} (r : answer exception A) : M A :=
  fun s => match r with
           | Returns a => (Done a, s)
           | Raises e => (Uncaught e, s)
           end.

(** A call into sqlite3: its failures are [sqlite3.Error]s. *)
Definition call_sqlite {A : Type} (r : answer sqlite3_Error A) : M A :=
  fun s => match r with
           | Returns a => (Done a, s)
           | Raises msg => (Uncaught (Exc SqliteError msg), s)
           end.

(** A call that goes through the state and is recorded. *)
Definition call_ext {A : Type} (ev : event DataFrame)
    (f : St -> answer exception A * St) : M A :=
  fun s =>
    let (r, st') := f (ext s) in
    let s' := {| ext := st'; log := log s ++ [ev] |} in
    match r with
    | Returns a => (Done a, s')
    | Raises e => (Uncaught e, s')
    end.

(* =================================================================== *)
(** ** Prompt and query generation (lines 109-135) *)
(* =================================================================== *)

(** The template of line 109 with [{schema}] and [{question}] filled in. *)
Definition format_prompt (schema question : str) : str :=
  lit " " ++ newline
  ++ lit "Your are a SQL assistance. Given a database chema and a natural language request,"
  ++ newline
  ++ lit "write the correct SQL query to answer it. Only use the given schema."
  ++ newline
  ++ lit "Schema:" ++ newline
  ++ schema ++ newline
  ++ lit "Question: " ++ dquote ++ question ++ dquote ++ newline
  ++ newline
  ++ lit "SQL:" ++ newline.

(** [chain.invoke({"schema": schema, "question": question})] *)
Definition chain_invoke (schema question : str) : M str :=
  let prompt := format_prompt schema question in
  call_ext (EvInvoke prompt) (chain_llm w prompt).

(** [pd.read_sql_query(sql_query, conn)] *)
Definition pd_read_sql_query (sql_query : str) : M DataFrame :=
  call_ext (EvReadSql sql_query) (read_sql_query w sql_query).

(* =================================================================== *)
(** ** process_question (lines 143-164) *)
(* =================================================================== *)

(** The first [try]: either the trimmed completion, or the pair the
    [except] branch returns from the function. *)
Definition generate (schema question : str)
  : M (str + option str * result DataFrame) :=
  try_except
    (raw <- chain_invoke schema question ;; ret (inl (strip raw)))
    is_Exception
    (fun e =>
       ret (inr (None,
                 Message (lit "Error generating SQL with LLM: " ++ exc_str e)))).

(** The second [try]. *)
Definition execute (sql_query : str) : M (result DataFrame) :=
  try_except
    (df <- pd_read_sql_query sql_query ;; ret (Frame df))
    is_Exception
    (fun e => ret (Message (lit "Error executing SQL: " ++ exc_str e))).

Definition process_question (schema question : str)
  : M (option str * result DataFrame) :=
  g <- generate schema question ;;
  match g with
  | inr returned => ret returned
  | inl sql_query =>
      let sql_query := strip_fences sql_query in
      result <- execute sql_query ;;
      ret (Some sql_query, result)
  end.

(* =================================================================== *)
(** ** The questions loop (lines 179-197) *)
(* =================================================================== *)

Definition questions : list str :=
  [ lit "List all customers in Canada.";
    lit "Which employees are sales agents?";
    lit "What are the 5 most purchased tracks?";
    lit "Show total sales per country in decending order.";
    lit "Which artists have more than 5 albums?";
    lit "list three expensive albums";
    lit "What is the total revenue from sales?" ].

(** [str(sql_query)] inside an f-string, for a string or [None]. *)
Definition str_of_query (sql_query : option str) : str :=
  match sql_query with
  | Some q => q
  | None => lit "None"
  end.

(** Lines 190-197: what the loop prints for one question. *)
Definition report (question : str) (sql_query : option str)
    (res : result DataFrame) : M unit :=
  print (newline ++ lit "Question: " ++ question) ;;
  print (lit "SQL Query: " ++ str_of_query sql_query) ;;
  print (lit "Result:") ;;
  match res with
  | Frame df => display df
  | Message text => print text
  end ;;
  print (newline ++ repeat_str (lit "=") 100 ++ newline).

(** Lines 188-197: the [for] loop over a list of questions. *)
Fixpoint for_questions (schema : str) (qs : list str) : M unit :=
  match qs with
  | [] => ret tt
  | question :: rest =>
      r <- process_question schema question ;;
      report question (fst r) (snd r) ;;
      for_questions schema rest
  end.

(* =================================================================== *)
(** ** The script from top to bottom *)
(* =================================================================== *)

Definition db_path : str := lit "Chinook.db".
Definition chinook_sql_path : str := lit "data/Chinook_Sqlite.sql".

(** The line of tildes printed between the sections. *)
Definition rule : str :=
  lit "~~~~~~~~~~~~~~~~~~~~~~~~~~~~~~~~~~~~~~~~~~~~~~~~~~~~~~~~~~~~~~~~~~~~~~~~".

(** Lines 26-34: read the seed script.  The two [except] clauses are tried
    in order. *)
Definition read_sql_script : M str :=
  try_except
    (call (open_read w chinook_sql_path))
    (fun e => is_FileNotFoundError e || is_Exception e)
    (fun e =>
       if is_FileNotFoundError e
       then print (lit "Error: SQL file not found at " ++ chinook_sql_path
                   ++ lit ".") ;;
            exit 1
       else print (lit "Error reading SQL file: " ++ exc_str e) ;;
            exit 1).

(** Lines 36-44: create and load the database. *)
Definition load_database (sql_script : str) : M unit :=
  try_except
    (call_sqlite (executescript w db_path sql_script) ;;
     print (lit "Chinook database schema and data loaded using sqlite3."))
    is_sqlite3_Error
    (fun e =>
       print (lit "Error creating/loading database: " ++ exc_str e) ;;
       exit 1).

(** Lines 47-53: count the rows of Artist; a failure is only reported. *)
Definition check_artist : M unit :=
  try_except
    (n <- call_sqlite (count_artist w db_path) ;;
     print (lit "Number of rows in Artist table:" ++ lit " " ++ of_Z n))
    is_sqlite3_Error
    (fun e => print (lit "Error checking Artist table: " ++ exc_str e)).

(** Lines 60-65: the connection and the cursor the rest of the script
    uses. *)
Definition connect_database : M Cursor :=
  try_except
    (call_sqlite (connect w (lit "Chinook.db")))
    is_sqlite3_Error
    (fun e =>
       print (lit "Error connecting to database: " ++ exc_str e) ;;
       exit 1).

(** [not api_key] for the value of [os.getenv]. *)
Definition not_api_key (api_key : option str) : bool :=
  match api_key with
  | None => true
  | Some key => negb (truthy key)
  end.

(** Lines 99-107: the API key.  Assigning [None] into [os.environ] would
    raise a [TypeError]; the test before it excludes that. *)
Definition load_api_key : M unit :=
  try_except
    (let api_key := getenv w (lit "GOOGLE-API-KEY") in
     (if not_api_key api_key
      then raise (Exc ValueError (lit "GOOGLE-API-KEY not found in .env file."))
      else ret tt) ;;
     match api_key with
     | Some key => emit (EvSetEnv (lit "GOOGLE_API_KEY") key)
     | None => raise (Exc OtherException (lit "str expected, not NoneType"))
     end)
    is_Exception
    (fun e => print (lit "Error loading API key: " ++ exc_str e) ;; exit 1).

(** The whole script.  Imports, the construction of the prompt template,
    of the model client and of the chain, and the pandas display options
    have no effect the script observes. *)
Definition main : M unit :=
  print (lit "1. Creating the Chinook database") ;;
  sql_script <- read_sql_script ;;
  load_database sql_script ;;
  check_artist ;;
  print (lit " -> Chinook database created successfully.") ;;
  print rule ;;
  print (lit "2. Connect to the SQLite database and display schema") ;;
  cursor <- connect_database ;;
  let schema := display_schema cursor cursor in
  print (slice_to schema 1000) ;;
  print rule ;;
  print (lit "3. Creating a prompt template for the LLM") ;;
  load_api_key ;;
  print (lit " -> Prompt template created successfully.") ;;
  print rule ;;
  print (lit "4. Prompting the AI agent") ;;
  print (lit " -> prompt carried out successfully .") ;;
  print rule ;;
  print (lit "5. Parsing the LLM SQL Output and Execute it") ;;
  print (lit " -> SQL query and result processing function ready.") ;;
  print rule ;;
  print (lit "6. Testing with few questions") ;;
  for_questions schema questions.

(* =================================================================== *)
(** ** Reading a run back from its log *)
(* =================================================================== *)

(** The prompts sent to the model, in order. *)
Fixpoint invocations (evs : list (event DataFrame)) : list str :=
  match evs with
  | [] => []
  | EvInvoke prompt :: evs' => prompt :: invocations evs'
  | _ :: evs' => invocations evs'
  end.

(** The SQL texts handed to the executor, in order. *)
Fixpoint executions (evs : list (event DataFrame)) : list str :=
  match evs with
  | [] => []
  | EvReadSql sql :: evs' => sql :: executions evs'
  | _ :: evs' => executions evs'
  end.

(** The console lines of the form "\nQuestion: ...", in order. *)
Definition question_banner (question : str) : str :=
  newline ++ lit "Question: " ++ question.

(** The events of one turn of the loop: the model is asked, the executor
    runs at most once, then the five prints (or four and a display). *)
Definition turn_events (schema question : str) (sql_query : option str)
    (res : result DataFrame) (ran : list str) : list (event DataFrame) :=
  [EvInvoke (format_prompt schema question)]
  ++ map (@EvReadSql DataFrame) ran
  ++ [EvPrint (question_banner question);
      EvPrint (lit "SQL Query: " ++ str_of_query sql_query);
      EvPrint (lit "Result:");
      match res with
      | Frame df => EvDisplay df
      | Message text => EvPrint text
      end;
      EvPrint (newline ++ repeat_str (lit "=") 100 ++ newline)].

(** A log made of one complete turn per question, in the order of the
    questions. *)
Inductive turns (schema : str) : list str -> list (event DataFrame) -> Prop :=
  | turns_nil : turns schema [] []
  | turns_cons question rest sql_query res ran evs :
      (List.length ran <= 1)%nat ->
      turns schema rest evs ->
      turns schema (question :: rest)
            (turn_events schema question sql_query res ran ++ evs).






End Script.

Arguments Frame {DataFrame} df.
Arguments EvDisplay {DataFrame} df.
Arguments Done {A} a.

(* ===================================================================== *)
(** * Concrete databases and worlds used in the examples *)
(* ===================================================================== *)

Module Scenario.

Definition column (i : Z) (name type : str) : column_row :=
  {| cid := i; col_name := name; col_type := type; notnull := 0;
     dflt_value := None; pk := 0 |}.

(** Two tables, Artist and Album, and sqlite_sequence. *)
Definition chinook_cursor : Cursor :=
  {| fetch_names := fun _ =>
       Returns [lit "Artist"; lit "sqlite_sequence"; lit "Album"];
     fetch_columns := fun sql =>
       if eqb sql (pragma_sql (lit "Artist"))
       then Returns [column 0 (lit "ArtistId") (lit "INTEGER");
                     column 1 (lit "Name") (lit "NVARCHAR(120)")]
       else if eqb sql (pragma_sql (lit "Album"))
       then Returns [column 0 (lit "AlbumId") (lit "INTEGER");
                     column 1 (lit "Title") (lit "NVARCHAR(160)");
                     column 2 (lit "ArtistId") (lit "INTEGER")]
       else Raises (Exc SqliteError (lit "near table_info: syntax error")) |}.

Definition chinook_columns (table : str) : list column_row :=
  if eqb table (lit "Artist")
  then [column 0 (lit "ArtistId") (lit "INTEGER");
        column 1 (lit "Name") (lit "NVARCHAR(120)")]
  else [column 0 (lit "AlbumId") (lit "INTEGER");
        column 1 (lit "Title") (lit "NVARCHAR(160)");
        column 2 (lit "ArtistId") (lit "INTEGER")].

(** One table T whose only column has a line feed inside its name. *)
Definition odd_column : column_row :=
  column 0 (lit "id" ++ newline ++ lit "table: ghost") (lit "INT").

Definition odd_cursor : Cursor :=
  {| fetch_names := fun _ => Returns [lit "T"];
     fetch_columns := fun _ => Returns [odd_column] |}.

(** The list of tables is there, the columns of the second table are not. *)
Definition locked_cursor : Cursor :=
  {| fetch_names := fun _ => Returns [lit "Artist"; lit "Album"];
     fetch_columns := fun sql =>
       if eqb sql (pragma_sql (lit "Artist"))
       then Returns [column 0 (lit "ArtistId") (lit "INTEGER")]
       else Raises (Exc SqliteError (lit "database is locked")) |}.

(** A stand-in for pandas' DataFrame: rows of rendered cells. *)
Definition Table : Type := list (list str).

(** A world where every set-up step succeeds, the model answers with a
    fenced query and the query runs.  The state counts the calls. *)
Definition good_world : World nat Table :=
  {| open_read := fun _ => Returns (lit "CREATE TABLE Artist (ArtistId INTEGER);");
     executescript := fun _ _ => Returns tt;
     count_artist := fun _ => Returns 275%Z;
     connect := fun _ => Returns chinook_cursor;
     getenv := fun _ => Some (lit "secret");
     chain_llm := fun _ n =>
       (Returns (lit "```sql" ++ newline ++ lit "SELECT 1;" ++ newline
                 ++ lit "```"), S n);
     read_sql_query := fun _ n => (Returns [[lit "1"]], S n) |}.

(** The model service refuses every call. *)
Definition failing_llm_world : World nat Table :=
  {| open_read := open_read good_world;
     executescript := executescript good_world;
     count_artist := count_artist good_world;
     connect := connect good_world;
     getenv := getenv good_world;
     chain_llm := fun _ n =>
       (Raises (Exc OtherException (lit "429 quota exceeded")), S n);
     read_sql_query := read_sql_query good_world |}.

(** The model writes a query on a table that does not exist. *)
Definition bad_sql_world : World nat Table :=
  {| open_read := open_read good_world;
     executescript := executescript good_world;
     count_artist := count_artist good_world;
     connect := connect good_world;
     getenv := getenv good_world;
     chain_llm := fun _ n => (Returns (lit "SELECT * FROM Foo;"), S n);
     read_sql_query := fun _ n =>
       (Raises (Exc OtherException (lit "no such table: Foo")), S n) |}.

(** The seed file is not there. *)
Definition no_seed_world : World nat Table :=
  {| open_read := fun _ =>
       Raises (Exc FileNotFoundError (lit "No such file or directory"));
     executescript := executescript good_world;
     count_artist := count_artist good_world;
     connect := connect good_world;
     getenv := getenv good_world;
     chain_llm := chain_llm good_world;
     read_sql_query := read_sql_query good_world |}.

Definition start : sys nat Table := {| ext := O; log := [] |}.

(** As [chinook_cursor], except that a [PRAGMA] on any other table answers
    with no row instead of failing. *)
Definition chinook_cursor_lenient : Cursor :=
  {| fetch_names := fetch_names chinook_cursor;
     fetch_columns := fun sql =>
       if eqb sql (pragma_sql (lit "Artist"))
       then fetch_columns chinook_cursor sql
       else if eqb sql (pragma_sql (lit "Album"))
       then fetch_columns chinook_cursor sql
       else Returns [] |}.

(** A database with no table of its own. *)
Definition empty_cursor : Cursor :=
  {| fetch_names := fun _ => Returns [lit "sqlite_sequence"];
     fetch_columns := fun _ => Returns [] |}.

(** The model answers with white space only. *)
Definition blank_world : World nat Table :=
  {| open_read := open_read good_world;
     executescript := executescript good_world;
     count_artist := count_artist good_world;
     connect := connect good_world;
     getenv := getenv good_world;
     chain_llm := fun _ n => (Returns (lit "  " ++ newline), S n);
     read_sql_query := fun _ n =>
       (Raises (Exc OtherException (lit "Execution failed on sql")), S n) |}.

(** The key is in the environment, but empty; the table Artist is not
    there. *)
Definition empty_key_world : World nat Table :=
  {| open_read := open_read good_world;
     executescript := executescript good_world;
     count_artist := fun _ => Raises (lit "no such table: Artist");
     connect := connect good_world;
     getenv := fun _ => Some [];
     chain_llm := chain_llm good_world;
     read_sql_query := read_sql_query good_world |}.

(** A schema text and a question to run single calls with. *)
Definition schema1 : str := display_schema tt chinook_cursor.
Definition question1 : str := lit "List all customers in Canada.".

(** The seed script does not load. *)
Definition bad_load_world : World nat Table :=
  {| open_read := open_read good_world;
     executescript := fun _ _ => Raises (lit "table Artist already exists");
     count_artist := count_artist good_world;
     connect := connect good_world;
     getenv := getenv good_world;
     chain_llm := chain_llm good_world;
     read_sql_query := read_sql_query good_world |}.

(** The database cannot be opened again after the load. *)
Definition no_connection_world : World nat Table :=
  {| open_read := open_read good_world;
     executescript := executescript good_world;
     count_artist := count_artist good_world;
     connect := fun _ => Raises (lit "unable to open database file");
     getenv := getenv good_world;
     chain_llm := chain_llm good_world;
     read_sql_query := read_sql_query good_world |}.

(** After ANALYZE the database lists sqlite_stat1 beside its one table. *)
Definition analyzed_cursor : Cursor :=
  {| fetch_names := fun _ => Returns [lit "Artist"; lit "sqlite_stat1"];
     fetch_columns := fun sql =>
       if eqb sql (pragma_sql (lit "Artist"))
       then Returns [column 0 (lit "ArtistId") (lit "INTEGER")]
       else Returns [column 0 (lit "tbl") [];
                     column 1 (lit "idx") [];
                     column 2 (lit "stat") []] |}.

(** Three tables whose names are x, 'x' (the quotes are part of the name)
    and y followed by a space, with two, one and three columns. *)
Definition quoted_catalog : catalog :=
  [ (lit "x", [column 0 (lit "a") (lit "INT"); column 1 (lit "b") (lit "INT")]);
    (lit "'x'", [column 0 (lit "only_col") (lit "INT")]);
    (lit "y ", [column 0 (lit "p") (lit "INT"); column 1 (lit "q") (lit "INT");
                column 2 (lit "r") (lit "INT")]) ].

(** What SQLite answers on that database.  In [PRAGMA table_info('x')] the
    quotes make a string literal that names the table x, and in
    [PRAGMA table_info(y )] the space is skipped and no table y exists, for
    which the pragma answers no row. *)
Definition quoted_cursor : Cursor :=
  {| fetch_names := fun _ => Returns (map fst quoted_catalog);
     fetch_columns := fun sql =>
       if eqb sql (pragma_sql (lit "x"))
       then Returns [column 0 (lit "a") (lit "INT"); column 1 (lit "b") (lit "INT")]
       else if eqb sql (pragma_sql (lit "'x'"))
       then Returns [column 0 (lit "a") (lit "INT"); column 1 (lit "b") (lit "INT")]
       else Returns [] |}.

End Scenario.

(* ===================================================================== *)
(** * Facts about Python strings *)
(* ===================================================================== *)

Module PyStrFacts.

Lemma startswith_app (p s : str) : startswith (p ++ s) p = true.
Proof.
  induction p as [|x p IH]; simpl; [reflexivity|].
  now rewrite N.eqb_refl, IH.
Qed.

Lemma startswith_prefix (p q s : str) :
  startswith s (p ++ q) = true -> startswith s p = true.
Proof.
  revert s. induction p as [|x p IH]; intros s H; simpl in *; [reflexivity|].
  destruct s as [|c s]; [discriminate|].
  apply andb_true_iff in H as [Hc Hs].
  rewrite Hc. simpl. now apply IH.
Qed.

Lemma endswith_app (s q : str) : endswith (s ++ q) q = true.
Proof.
  unfold endswith. rewrite rev_app_distr. apply startswith_app.
Qed.

Lemma truthy_app_r (s q : str) : truthy q = true -> truthy (s ++ q) = true.
Proof.
  destruct s; simpl; [trivial|reflexivity].
Qed.

(** Slicing off a prefix and a non-empty suffix leaves the middle. *)
Lemma slice_middle (p body q : str) :
  q <> [] ->
  slice (p ++ body ++ q) (Z.of_nat (List.length p)) (- Z.of_nat (List.length q))
  = body.
Proof.
  intros Hq. unfold slice, clamp.
  rewrite !length_app.
  assert (Hlen : (0 < List.length q)%nat) by (destruct q; simpl; [congruence|lia]).
  destruct (Z.ltb_spec (Z.of_nat (List.length p)) 0) as [Hneg|_]; [lia|].
  destruct (Z.ltb_spec (- Z.of_nat (List.length q)) 0) as [_|Hpos]; [|lia].
  rewrite Z.min_l by lia.
  rewrite Z.max_r by lia.
  rewrite Nat2Z.id.
  rewrite skipn_app, skipn_all, Nat.sub_diag. simpl.
  replace (Z.to_nat _) with (List.length body) by lia.
  rewrite firstn_app, firstn_all, Nat.sub_diag. simpl.
  now rewrite app_nil_r.
Qed.

Lemma dropwhile_head (p : char -> bool) (s : str) :
  match dropwhile p s with
  | [] => True
  | c :: _ => p c = false
  end.
Proof.
  induction s as [|c s IH]; simpl; [exact I|].
  destruct (p c) eqn:Hc; [exact IH|exact Hc].
Qed.

Lemma dropwhile_idem (p : char -> bool) (s : str) :
  dropwhile p (dropwhile p s) = dropwhile p s.
Proof.
  pose proof (dropwhile_head p s) as H.
  destruct (dropwhile p s) as [|c t]; simpl; [reflexivity|now rewrite H].
Qed.

Lemma dropwhile_snoc (p : char -> bool) (s : str) (c : char) :
  p c = false -> dropwhile p (s ++ [c]) = dropwhile p s ++ [c].
Proof.
  intros Hc. induction s as [|a s IH]; simpl.
  - now rewrite Hc.
  - destruct (p a); [exact IH|reflexivity].
Qed.

Lemma rstrip_idem (s : str) : rstrip (rstrip s) = rstrip s.
Proof.
  unfold rstrip. now rewrite rev_involutive, dropwhile_idem.
Qed.

Lemma lstrip_rstrip_lstrip (s : str) :
  lstrip (rstrip (lstrip s)) = rstrip (lstrip s).
Proof.
  unfold lstrip at 2 3.
  pose proof (dropwhile_head isspace s) as H.
  destruct (dropwhile isspace s) as [|c t]; [reflexivity|].
  unfold rstrip. simpl rev.
  rewrite dropwhile_snoc by exact H.
  rewrite rev_app_distr. simpl.
  unfold lstrip. simpl. now rewrite H.
Qed.

(** [strip] leaves a trimmed text as it is. *)
Lemma strip_idem (s : str) : strip (strip s) = strip s.
Proof.
  unfold strip at 1. unfold strip.
  now rewrite lstrip_rstrip_lstrip, rstrip_idem.
Qed.

Lemma length_dropwhile (p : char -> bool) (s : str) :
  (List.length (dropwhile p s) <= List.length s)%nat.
Proof.
  induction s as [|c s IH]; simpl; [lia|].
  destruct (p c); simpl; lia.
Qed.

Lemma length_strip (s : str) : (List.length (strip s) <= List.length s)%nat.
Proof.
  unfold strip, rstrip, lstrip. rewrite length_rev.
  pose proof (length_dropwhile isspace (rev (dropwhile isspace s))) as H1.
  pose proof (length_dropwhile isspace s) as H2.
  rewrite length_rev in H1. lia.
Qed.

(** A slice that starts after the first character is shorter than the
    text. *)
Lemma length_slice_lt (s : str) (i j : Z) :
  (0 < i)%Z -> s <> [] ->
  (List.length (slice s i j) < List.length s)%nat.
Proof.
  intros Hi Hs. unfold slice, clamp.
  assert (Hlen : (0 < List.length s)%nat)
    by (destruct s; simpl; [congruence|lia]).
  destruct (Z.ltb_spec i 0) as [Hneg|_]; [lia|].
  rewrite length_firstn, length_skipn. lia.
Qed.

End PyStrFacts.

Import PyStrFacts.

(* ===================================================================== *)
(** * The sanitizer *)
(* ===================================================================== *)

Example sanitize_sql_fence :
  sanitize (lit "  ```sql" ++ newline ++ lit "SELECT 1;" ++ newline ++ lit "``` ")
  = lit "SELECT 1;".
Proof. reflexivity. Qed.

Example sanitize_bare_fence :
  sanitize (lit "```SELECT 1;```") = lit "SELECT 1;".
Proof. reflexivity. Qed.

Example sanitize_overlapping_fence : sanitize (lit "````") = [].
Proof. reflexivity. Qed.

Example sanitize_leading_fence_only :
  sanitize (lit "```sql" ++ newline ++ lit "SELECT 1;")
  = lit "```sql" ++ newline ++ lit "SELECT 1;".
Proof. reflexivity. Qed.

(** A text that does not both start and end with the fence goes through
    the fence removal unchanged. *)
Lemma strip_fences_unfenced (s : str) :
  startswith s fence && endswith s fence = false -> strip_fences s = s.
Proof.
  intros H. unfold strip_fences.
  destruct (endswith s fence) eqn:He.
  - rewrite andb_true_r in H.
    destruct (startswith s fence_sql) eqn:Hsql.
    + apply (startswith_prefix fence (lit "sql")) in Hsql. congruence.
    + rewrite H. now rewrite !andb_false_r.
  - now rewrite !andb_false_r.
Qed.




Lemma endswith_fence (p body : str) : endswith (p ++ body ++ fence) fence = true.
Proof. rewrite app_assoc. apply endswith_app. Qed.

(** The fence removal on a text of the shape fence-sql, body, fence. *)
Lemma strip_fences_sql (body : str) :
  strip_fences (fence_sql ++ body ++ fence) = strip body.
Proof.
  unfold strip_fences.
  rewrite startswith_app, endswith_fence.
  change (truthy (fence_sql ++ body ++ fence)) with true. cbv iota. simpl andb. cbv iota.
  change 6%Z with (Z.of_nat (List.length fence_sql)).
  change (-3)%Z with (- Z.of_nat (List.length fence))%Z.
  rewrite slice_middle; [reflexivity|discriminate].
Qed.


(** What [sanitize] returns is trimmed. *)
Lemma strip_sanitize (raw : str) : strip (sanitize raw) = sanitize raw.
Proof.
  unfold sanitize, strip_fences.
  destruct (truthy (strip raw) && startswith (strip raw) fence_sql
            && endswith (strip raw) fence);
    [apply strip_idem|].
  destruct (truthy (strip raw) && startswith (strip raw) fence
            && endswith (strip raw) fence);
    apply strip_idem.
Qed.




(** When the test of lines 156 and 158 fails on the trimmed completion, the
    sanitization step returns it as it is, trimmed and nothing else. *)
Theorem sanitize_unfenced (raw : str) :
  startswith (strip raw) fence && endswith (strip raw) fence = false ->
  sanitize raw = strip raw.
Proof.
  intros H. unfold sanitize. now apply strip_fences_unfenced.
Qed.

Lemma sanitize_unfenced_witness :
  startswith (strip (lit " ```sql" ++ newline ++ lit "SELECT 1; ")) fence
  && endswith (strip (lit " ```sql" ++ newline ++ lit "SELECT 1; ")) fence = false
  /\ sanitize (lit " ```sql" ++ newline ++ lit "SELECT 1; ")
     = strip (lit " ```sql" ++ newline ++ lit "SELECT 1; ").
Proof.
  split.
  - reflexivity.
  - apply (sanitize_unfenced (lit " ```sql" ++ newline ++ lit "SELECT 1; ")).
    reflexivity.
Defined.

(** C6 (as amended): when the sanitized text does not itself both start and
    end with the fence, sanitizing it again changes nothing. *)
Theorem sanitize_idempotent_unless_nested (raw : str) :
  startswith (sanitize raw) fence && endswith (sanitize raw) fence = false ->
  sanitize (sanitize raw) = sanitize raw.
Proof.
  intros H. unfold sanitize at 1.
  rewrite strip_sanitize. now apply strip_fences_unfenced.
Qed.

Lemma sanitize_idempotent_unless_nested_witness :
  startswith (sanitize (lit "```sql SELECT 1; ```")) fence
  && endswith (sanitize (lit "```sql SELECT 1; ```")) fence = false
  /\ sanitize (sanitize (lit "```sql SELECT 1; ```"))
     = sanitize (lit "```sql SELECT 1; ```").
Proof.
  split.
  - reflexivity.
  - apply (sanitize_idempotent_unless_nested (lit "```sql SELECT 1; ```")).
    reflexivity.
Defined.

(** C6 fails on a doubly fenced completion: the first pass removes the outer
    fence only, the second pass removes the inner one. *)
Lemma sanitize_not_idempotent :
  sanitize (lit "```" ++ newline ++ lit "```sql" ++ newline ++ lit "SELECT 1;"
            ++ newline ++ lit "```" ++ newline ++ lit "```")
    = lit "```sql" ++ newline ++ lit "SELECT 1;" ++ newline ++ lit "```"
  /\ sanitize (sanitize (lit "```" ++ newline ++ lit "```sql" ++ newline
                         ++ lit "SELECT 1;" ++ newline ++ lit "```" ++ newline
                         ++ lit "```"))
     = lit "SELECT 1;"
  /\ sanitize (sanitize (lit "```" ++ newline ++ lit "```sql" ++ newline
                         ++ lit "SELECT 1;" ++ newline ++ lit "```" ++ newline
                         ++ lit "```"))
     <> sanitize (lit "```" ++ newline ++ lit "```sql" ++ newline
                  ++ lit "SELECT 1;" ++ newline ++ lit "```" ++ newline
                  ++ lit "```").
Proof.
  repeat split. discriminate.
Qed.

(** Removing a pair of fences shortens the text. *)
Lemma strip_fences_fenced_shorter (s : str) :
  startswith s fence && endswith s fence = true ->
  (List.length (strip_fences s) < List.length s)%nat.
Proof.
  intros H. apply andb_true_iff in H as [Hs He].
  assert (Hne : s <> []) by (intros ->; discriminate Hs).
  assert (Ht : truthy s = true) by (destruct s; [congruence|reflexivity]).
  unfold strip_fences. rewrite Ht, Hs, He. cbn [andb].
  destruct (startswith s fence_sql).
  - pose proof (length_strip (slice s 6 (-3))) as H1.
    pose proof (@length_slice_lt s 6 (-3) eq_refl Hne) as H2. cbn [andb]. lia.
  - pose proof (length_strip (slice s 3 (-3))) as H1.
    pose proof (@length_slice_lt s 3 (-3) eq_refl Hne) as H2. cbn [andb]. lia.
Qed.

(** The condition of [sanitize_idempotent_unless_nested] cannot be dropped:
    when the sanitized text is itself fenced, a second pass changes it. *)
Lemma sanitize_nested_changes (raw : str) :
  startswith (sanitize raw) fence && endswith (sanitize raw) fence = true ->
  sanitize (sanitize raw) <> sanitize raw.
Proof.
  intros H Heq. unfold sanitize at 1 in Heq.
  rewrite strip_sanitize in Heq.
  pose proof (strip_fences_fenced_shorter _ H) as Hlt.
  rewrite Heq in Hlt. lia.
Qed.

(* ===================================================================== *)
(** * The schema introspector *)
(* ===================================================================== *)

Lemma add_columns_concat (columns : list column_row) (schema : str) :
  add_columns columns schema = schema ++ List.concat (map column_line columns).
Proof.
  unfold add_columns. revert schema.
  induction columns as [|c columns IH]; intros schema; simpl.
  - now rewrite app_nil_r.
  - rewrite IH. now rewrite <- app_assoc.
Qed.

(** The outer loop when every [PRAGMA table_info] answers. *)
Lemma add_tables_all (cursor : Cursor) (tables : list str)
    (columns : list (list column_row)) (schema : str) :
  Forall2 (fun t cols => fetch_columns cursor (pragma_sql t) = Returns cols)
          tables columns ->
  add_tables cursor tables schema
  = (schema ++ List.concat (map (fun tc => table_block (fst tc) (snd tc))
                           (combine tables columns)),
     None).
Proof.
  intros H. revert schema.
  induction H as [|t cols tables columns Ht _ IH]; intros schema;
    cbn [add_tables combine map List.concat fst snd].
  - now rewrite app_nil_r.
  - rewrite Ht, IH, add_columns_concat. unfold table_block.
    now rewrite <- !app_assoc.
Qed.

(** The outer loop when the columns of [table] cannot be read. *)
Lemma add_tables_interrupted (cursor : Cursor) (done : list str)
    (columns : list (list column_row)) (table : str) (rest : list str)
    (e : exception) (schema : str) :
  Forall2 (fun t cols => fetch_columns cursor (pragma_sql t) = Returns cols)
          done columns ->
  fetch_columns cursor (pragma_sql table) = Raises e ->
  add_tables cursor (done ++ table :: rest) schema
  = (schema ++ List.concat (map (fun tc => table_block (fst tc) (snd tc))
                           (combine done columns))
     ++ table_header table,
     Some e).
Proof.
  intros H He. revert schema.
  induction H as [|t cols done columns Ht _ IH]; intros schema;
    cbn [add_tables combine map List.concat fst snd app].
  - now rewrite He.
  - rewrite Ht, IH, add_columns_concat. unfold table_block.
    now rewrite <- !app_assoc.
Qed.

(** C8: when the enumeration of the tables or of the columns of a table
    raises an exception, [display_schema] returns the text gathered so far
    followed by the line that embeds the error; nothing is raised. *)
Theorem display_schema_recovers (A : Type) (conn : A) (cursor : Cursor)
    (partial : str) (e : exception) :
  enumeration_fails cursor partial e ->
  display_schema conn cursor
  = partial ++ lit "Error extracting schema: " ++ exc_str e ++ newline.
Proof.
  intros H. unfold display_schema.
  destruct H as [e Hn | names done table rest columns e Hn Hu Hd He].
  - now rewrite Hn.
  - rewrite Hn, Hu.
    rewrite (@add_tables_interrupted cursor done columns table rest e [] Hd He).
    unfold schema_error. now rewrite app_nil_l.
Qed.

Lemma display_schema_recovers_witness :
  enumeration_fails Scenario.locked_cursor
    (table_block (lit "Artist")
       [Scenario.column 0 (lit "ArtistId") (lit "INTEGER")]
     ++ table_header (lit "Album"))
    (Exc SqliteError (lit "database is locked"))
  /\ display_schema tt Scenario.locked_cursor
     = (table_block (lit "Artist")
          [Scenario.column 0 (lit "ArtistId") (lit "INTEGER")]
        ++ table_header (lit "Album"))
       ++ lit "Error extracting schema: " ++ lit "database is locked" ++ newline.
Proof.
  assert (H : enumeration_fails Scenario.locked_cursor
    (table_block (lit "Artist")
       [Scenario.column 0 (lit "ArtistId") (lit "INTEGER")]
     ++ table_header (lit "Album"))
    (Exc SqliteError (lit "database is locked"))).
  { apply (@fails_on_columns Scenario.locked_cursor
             [lit "Artist"; lit "Album"] [lit "Artist"] (lit "Album") []
             [[Scenario.column 0 (lit "ArtistId") (lit "INTEGER")]]).
    - reflexivity.
    - reflexivity.
    - constructor; [reflexivity|constructor].
    - reflexivity. }
  split; [exact H|].
  exact (@display_schema_recovers unit tt _ _ _ H).
Defined.

(** The columns of a list of tables are all read, or the reading stops at
    one of them. *)
Lemma fetch_columns_outcomes (cursor : Cursor) (tables : list str) :
  (exists columns,
     Forall2 (fun t cols => fetch_columns cursor (pragma_sql t) = Returns cols)
             tables columns)
  \/ (exists done table rest columns e,
        tables = done ++ table :: rest
        /\ Forall2 (fun t cols => fetch_columns cursor (pragma_sql t) = Returns cols)
                   done columns
        /\ fetch_columns cursor (pragma_sql table) = Raises e).
Proof.
  induction tables as [|t tables IH].
  - left. exists []. constructor.
  - destruct (fetch_columns cursor (pragma_sql t)) as [cols|e] eqn:Ht.
    + destruct IH as [[columns H]|(done & table & rest & columns & e & Hs & Hd & He)].
      * left. exists (cols :: columns). now constructor.
      * right. exists (t :: done), table, rest, (cols :: columns), e.
        subst tables. repeat split; [now constructor|exact He].
    + right. exists [], t, tables, [], e. repeat split; [constructor|exact Ht].
Qed.

(** There is no third way: the enumeration goes through, or it fails in one
    of the two ways [enumeration_fails] describes. *)
Lemma enumeration_outcomes (cursor : Cursor) :
  (exists names columns,
     fetch_names cursor select_tables_sql = Returns names
     /\ Forall2 (fun t cols => fetch_columns cursor (pragma_sql t) = Returns cols)
                (user_tables names) columns)
  \/ (exists partial e, enumeration_fails cursor partial e).
Proof.
  destruct (fetch_names cursor select_tables_sql) as [names|e] eqn:Hn.
  - destruct (fetch_columns_outcomes cursor (user_tables names))
      as [[columns H]|(done & table & rest & columns & e & Hs & Hd & He)].
    + left. now exists names, columns.
    + right. eexists. exists e.
      exact (@fails_on_columns cursor names done table rest columns e Hn Hs Hd He).
  - right. exists [], e. now constructor.
Qed.

(** C10: [display_schema] gives the same text whatever it is passed; only the
    module-global cursor matters. *)
Theorem display_schema_ignores_argument (A B : Type) (a : A) (b : B)
    (cursor : Cursor) :
  display_schema a cursor = display_schema b cursor.
Proof. reflexivity. Qed.

(** ** The lines of the rendered schema *)

Lemma single_line_app (a b : str) :
  single_line (a ++ b) = single_line a && single_line b.
Proof. apply forallb_app. Qed.

Lemma lines_from_line (cur l rest : str) :
  single_line l = true ->
  lines_from cur (l ++ newline ++ rest) = (rev cur ++ l) :: lines rest.
Proof.
  revert cur. induction l as [|a l IH]; intros cur H.
  - simpl. now rewrite app_nil_r.
  - simpl in H. apply andb_true_iff in H as [Ha Hl].
    apply negb_true_iff in Ha.
    cbn [app lines_from]. rewrite Ha, IH by exact Hl.
    simpl. now rewrite <- app_assoc.
Qed.

Lemma lines_line (l rest : str) :
  single_line l = true -> lines (l ++ newline ++ rest) = l :: lines rest.
Proof. intros H. unfold lines at 1. now rewrite lines_from_line. Qed.

Lemma single_line_column_text (c : column_row) :
  single_line_column c -> single_line (column_text c) = true.
Proof.
  intros [Hn Ht]. unfold column_text.
  rewrite !single_line_app, Hn, Ht. reflexivity.
Qed.

Lemma column_line_text (c : column_row) :
  column_line c = column_text c ++ newline.
Proof. unfold column_line, column_text. now rewrite <- !app_assoc. Qed.

Lemma table_header_text (table : str) :
  table_header table = header_text table ++ newline ++ lit "Columns:" ++ newline.
Proof. unfold table_header, header_text. now rewrite <- !app_assoc. Qed.

Lemma lines_columns (columns : list column_row) (rest : str) :
  Forall single_line_column columns ->
  lines (List.concat (map column_line columns) ++ rest)
  = map column_text columns ++ lines rest.
Proof.
  induction 1 as [|c columns Hc _ IH]; [reflexivity|].
  cbn [map List.concat]. rewrite column_line_text, <- !app_assoc.
  rewrite lines_line by now apply single_line_column_text.
  now rewrite IH.
Qed.

Lemma lines_table_block (table : str) (columns : list column_row) (rest : str) :
  single_line table = true ->
  Forall single_line_column columns ->
  lines (table_block table columns ++ rest)
  = header_text table :: lit "Columns:"
    :: map column_text columns ++ [] :: lines rest.
Proof.
  intros Ht Hc. unfold table_block.
  rewrite table_header_text, <- !app_assoc.
  rewrite lines_line
    by (unfold header_text; rewrite single_line_app, Ht; reflexivity).
  rewrite lines_line by reflexivity.
  rewrite lines_columns by exact Hc.
  reflexivity.
Qed.

Lemma filter_map_none {X Y : Type} (p : Y -> bool) (f : X -> Y) (l : list X) :
  (forall x, p (f x) = false) -> filter p (map f l) = [].
Proof.
  intros H. induction l as [|x l IH]; simpl; [reflexivity|].
  now rewrite H.
Qed.

Lemma filter_map_all {X Y : Type} (p : Y -> bool) (f : X -> Y) (l : list X) :
  (forall x, p (f x) = true) -> filter p (map f l) = map f l.
Proof.
  intros H. induction l as [|x l IH]; simpl; [reflexivity|].
  now rewrite H, IH.
Qed.

(** The header lines and the column lines of a sequence of table blocks. *)
Lemma rendered_lines (tables : list str) (columns : list (list column_row)) :
  List.length tables = List.length columns ->
  Forall (fun t => single_line t = true) tables ->
  Forall (Forall single_line_column) columns ->
  filter is_table_header
    (lines (List.concat (map (fun tc => table_block (fst tc) (snd tc))
                             (combine tables columns))))
  = map header_text tables
  /\ filter is_column_line
       (lines (List.concat (map (fun tc => table_block (fst tc) (snd tc))
                                (combine tables columns))))
     = map column_text (List.concat columns).
Proof.
  revert columns.
  induction tables as [|t tables IH]; intros [|cols columns] Hlen Ht Hc;
    try discriminate.
  - split; reflexivity.
  - inversion Ht as [|? ? Ht1 Ht2]; subst.
    inversion Hc as [|? ? Hc1 Hc2]; subst.
    injection Hlen as Hlen.
    destruct (IH columns Hlen Ht2 Hc2) as [IHh IHc].
    cbn [combine map List.concat fst snd].
    rewrite lines_table_block by assumption.
    split.
    + cbn [filter].
      replace (is_table_header (header_text t)) with true by reflexivity.
      replace (is_table_header (lit "Columns:")) with false by reflexivity.
      rewrite filter_app, filter_map_none by reflexivity.
      cbn [filter app map].
      replace (is_table_header []) with false by reflexivity.
      now rewrite IHh.
    + cbn [filter].
      replace (is_column_line (header_text t)) with false by reflexivity.
      replace (is_column_line (lit "Columns:")) with false by reflexivity.
      rewrite filter_app, filter_map_all by reflexivity.
      cbn [filter].
      replace (is_column_line []) with false by reflexivity.
      now rewrite IHc, map_app.
Qed.

Lemma display_schema_all (A : Type) (conn : A) (cursor : Cursor)
    (names : list str) (columns : list (list column_row)) :
  fetch_names cursor select_tables_sql = Returns names ->
  Forall2 (fun t cols => fetch_columns cursor (pragma_sql t) = Returns cols)
          (user_tables names) columns ->
  display_schema conn cursor
  = List.concat (map (fun tc => table_block (fst tc) (snd tc))
                     (combine (user_tables names) columns)).
Proof.
  intros Hn Hc. unfold display_schema.
  rewrite Hn. now rewrite add_tables_all with (columns := columns) by exact Hc.
Qed.

(** C4 (as amended): when the list of tables and every [PRAGMA table_info]
    are answered, and no listed name, answered column name or declared type
    holds a line feed, the text has exactly one "table:" header line per
    listed name other than sqlite_sequence (any other internal table counts)
    and exactly one column line per row that the [PRAGMA] on that name,
    interpolated unquoted, answers, the sum of these row counts in all; the
    column lines give the name and declared type of the answered rows, in
    order. *)
Theorem display_schema_counts (A : Type) (conn : A) (cursor : Cursor)
    (names : list str) (columns : list (list column_row)) :
  fetch_names cursor select_tables_sql = Returns names ->
  Forall2 (fun t cols => fetch_columns cursor (pragma_sql t) = Returns cols)
          (user_tables names) columns ->
  Forall (fun t => single_line t = true) (user_tables names) ->
  Forall (Forall single_line_column) columns ->
  count_lines is_table_header (display_schema conn cursor)
    = List.length (user_tables names)
  /\ count_lines is_column_line (display_schema conn cursor)
     = list_sum (map (@List.length column_row) columns)
  /\ filter is_table_header (lines (display_schema conn cursor))
     = map header_text (user_tables names)
  /\ filter is_column_line (lines (display_schema conn cursor))
     = map column_text (List.concat columns).
Proof.
  intros Hn Hc Ht Hs.
  rewrite display_schema_all with (names := names) (columns := columns)
    by assumption.
  unfold count_lines.
  destruct (rendered_lines (Forall2_length Hc) Ht Hs) as [Hh Hl].
  rewrite Hh, Hl, !length_map, length_concat.
  repeat split.
Qed.

Lemma display_schema_counts_witness :
  fetch_names Scenario.chinook_cursor select_tables_sql
    = Returns [lit "Artist"; lit "sqlite_sequence"; lit "Album"]
  /\ count_lines is_table_header (display_schema tt Scenario.chinook_cursor) = 2%nat
  /\ count_lines is_column_line (display_schema tt Scenario.chinook_cursor) = 5%nat.
Proof.
  destruct (@display_schema_counts unit tt Scenario.chinook_cursor
              [lit "Artist"; lit "sqlite_sequence"; lit "Album"]
              [Scenario.chinook_columns (lit "Artist");
               Scenario.chinook_columns (lit "Album")])
    as [Hh [Hc _]].
  - reflexivity.
  - repeat constructor.
  - repeat constructor.
  - repeat constructor.
  - split; [reflexivity|]. split; [exact Hh|exact Hc].
Defined.

(** A name that holds a line feed: the database has the one table T with one
    column, both metadata queries are answered, and the text has two lines
    that start with "table:". *)
Lemma display_schema_extra_header :
  fetch_names Scenario.odd_cursor select_tables_sql = Returns [lit "T"]
  /\ user_tables [lit "T"] = [lit "T"]
  /\ fetch_columns Scenario.odd_cursor (pragma_sql (lit "T"))
     = Returns [Scenario.odd_column]
  /\ display_schema tt Scenario.odd_cursor
     = lit "table: T" ++ newline ++ lit "Columns:" ++ newline
       ++ lit "  - id" ++ newline ++ lit "table: ghost (INT)" ++ newline
       ++ newline
  /\ count_lines is_table_header (display_schema tt Scenario.odd_cursor) = 2%nat
  /\ count_lines is_table_header (display_schema tt Scenario.odd_cursor)
     <> List.length (user_tables [lit "T"]).
Proof.
  repeat split. discriminate.
Qed.

(* ===================================================================== *)
(** * process_question and the questions loop *)
(* ===================================================================== *)

Section ScriptFacts.

Variables St DataFrame : Type.
Variable w : World St DataFrame.

Lemma is_Exception_all (e : exception) : is_Exception e = true.
Proof. unfold is_Exception. now destruct (exc_class_of e). Qed.

Lemma bind_done {X Y : Type} (m : M St DataFrame X) (k : X -> M St DataFrame Y) (s s' : sys St DataFrame) (x : X) :
  m s = (Done x, s') -> bind m k s = k x s'.
Proof. intros H. unfold bind. now rewrite H. Qed.

Lemma bind_exit {X Y : Type} (m : M St DataFrame X) (k : X -> M St DataFrame Y) (s s' : sys St DataFrame) (code : Z) :
  m s = (SysExit code, s') -> bind m k s = (SysExit code, s').
Proof. intros H. unfold bind. now rewrite H. Qed.

Lemma print_run (text : str) (s : sys St DataFrame) :
  print text s = (Done tt, logged s [EvPrint text]).
Proof. reflexivity. Qed.

Lemma invocations_app (a b : list (event DataFrame)) :
  invocations (a ++ b) = invocations a ++ invocations b.
Proof.
  induction a as [|ev a IH]; [reflexivity|].
  destruct ev; simpl; now rewrite IH.
Qed.

Lemma executions_app (a b : list (event DataFrame)) :
  executions (a ++ b) = executions a ++ executions b.
Proof.
  induction a as [|ev a IH]; [reflexivity|].
  destruct ev; simpl; now rewrite IH.
Qed.

(** *** The three ways [process_question] ends *)

Lemma process_question_generation_error (schema question : str) (s : sys St DataFrame)
    (e : exception) (st1 : St) :
  chain_llm w (format_prompt schema question) (ext s) = (Raises e, st1) ->
  process_question w schema question s
  = (Done (None, Message (lit "Error generating SQL with LLM: " ++ exc_str e)),
     {| ext := st1;
        log := log s ++ [EvInvoke (format_prompt schema question)] |}).
Proof.
  intros H.
  unfold process_question, generate, bind, try_except, chain_invoke,
    call_ext, ret.
  rewrite H. now rewrite is_Exception_all.
Qed.

Lemma process_question_execution_error (schema question : str) (s : sys St DataFrame)
    (raw : str) (st1 : St) (e : exception) (st2 : St) :
  chain_llm w (format_prompt schema question) (ext s) = (Returns raw, st1) ->
  read_sql_query w (sanitize raw) st1 = (Raises e, st2) ->
  process_question w schema question s
  = (Done (Some (sanitize raw),
           Message (lit "Error executing SQL: " ++ exc_str e)),
     {| ext := st2;
        log := log s ++ [EvInvoke (format_prompt schema question);
                         EvReadSql (sanitize raw)] |}).
Proof.
  intros H1 H2.
  unfold process_question, generate, execute, bind, try_except,
    chain_invoke, pd_read_sql_query, call_ext, ret.
  rewrite H1. cbn [ext log].
  fold (sanitize raw). rewrite H2, is_Exception_all.
  now rewrite <- app_assoc.
Qed.

Lemma process_question_success (schema question : str) (s : sys St DataFrame)
    (raw : str) (st1 : St) (df : DataFrame) (st2 : St) :
  chain_llm w (format_prompt schema question) (ext s) = (Returns raw, st1) ->
  read_sql_query w (sanitize raw) st1 = (Returns df, st2) ->
  process_question w schema question s
  = (Done (Some (sanitize raw), Frame df),
     {| ext := st2;
        log := log s ++ [EvInvoke (format_prompt schema question);
                         EvReadSql (sanitize raw)] |}).
Proof.
  intros H1 H2.
  unfold process_question, generate, execute, bind, try_except,
    chain_invoke, pd_read_sql_query, call_ext, ret.
  rewrite H1. cbn [ext log].
  fold (sanitize raw). rewrite H2.
  now rewrite <- app_assoc.
Qed.

(** Whatever the model and the database answer, [process_question] ends
    normally, in one of three ways, having asked the model once and run
    at most one query. *)
Lemma process_question_total (schema question : str) (s : sys St DataFrame) :
  exists sql_query res st ran,
    process_question w schema question s
    = (Done (sql_query, res),
       {| ext := st;
          log := log s ++ EvInvoke (format_prompt schema question)
                          :: map (@EvReadSql DataFrame) ran |})
    /\ (List.length ran <= 1)%nat
    /\ ((exists e,
           sql_query = None
           /\ res = Message (lit "Error generating SQL with LLM: " ++ exc_str e))
        \/ (exists q e,
              sql_query = Some q
              /\ res = Message (lit "Error executing SQL: " ++ exc_str e))
        \/ (exists q df, sql_query = Some q /\ res = Frame df)).
Proof.
  destruct (chain_llm w (format_prompt schema question) (ext s))
    as [[raw|e] st1] eqn:H1.
  - destruct (read_sql_query w (sanitize raw) st1) as [[df|e] st2] eqn:H2.
    + exists (Some (sanitize raw)), (Frame df), st2, [sanitize raw].
      split; [exact (process_question_success _ _ _ H1 H2)|].
      split; [simpl; lia|]. right. right. now exists (sanitize raw), df.
    + exists (Some (sanitize raw)),
        (Message (lit "Error executing SQL: " ++ exc_str e)), st2,
        [sanitize raw].
      split; [exact (process_question_execution_error _ _ _ H1 H2)|].
      split; [simpl; lia|]. right. left. now exists (sanitize raw), e.
  - exists None,
      (Message (lit "Error generating SQL with LLM: " ++ exc_str e)), st1,
      [].
    split; [exact (process_question_generation_error _ _ _ H1)|].
    split; [simpl; lia|]. left. now exists e.
Qed.

Lemma report_run (question : str) (sql_query : option str)
    (res : result DataFrame) (s : sys St DataFrame) :
  report question sql_query res s
  = (Done tt,
     logged s
       [EvPrint (question_banner question);
        EvPrint (lit "SQL Query: " ++ str_of_query sql_query);
        EvPrint (lit "Result:");
        match res with
        | Frame df => EvDisplay df
        | Message text => EvPrint text
        end;
        EvPrint (newline ++ repeat_str (lit "=") 100 ++ newline)]).
Proof.
  unfold report, bind, print, display, emit, logged, question_banner.
  destruct res; cbn [ext log]; now rewrite <- !app_assoc.
Qed.

(** The loop ends normally and leaves one complete turn per question, in
    the order of the list. *)
Lemma for_questions_turns (schema : str) (qs : list str) (s : sys St DataFrame) :
  exists s' evs,
    for_questions w schema qs s = (Done tt, s')
    /\ log s' = log s ++ evs
    /\ turns schema qs evs.
Proof.
  revert s. induction qs as [|question rest IH]; intros s.
  - exists s, []. repeat split; [now rewrite app_nil_r|constructor].
  - destruct (process_question_total schema question s)
      as (sql_query & res & st & ran & Hp & Hran & _).
    cbn [for_questions].
    erewrite bind_done by exact Hp. cbn [fst snd].
    erewrite bind_done by apply report_run.
    destruct (IH (logged
                    {| ext := st;
                       log := log s ++ EvInvoke (format_prompt schema question)
                                       :: map (@EvReadSql DataFrame) ran |}
                    [EvPrint (question_banner question);
                     EvPrint (lit "SQL Query: " ++ str_of_query sql_query);
                     EvPrint (lit "Result:");
                     match res with
                     | Frame df => EvDisplay df
                     | Message text => EvPrint text
                     end;
                     EvPrint (newline ++ repeat_str (lit "=") 100 ++ newline)]))
      as (s' & evs & Hrun & Hlog & Hturns).
    exists s', (turn_events schema question sql_query res ran ++ evs).
    split; [exact Hrun|]. split.
    + rewrite Hlog. unfold logged, turn_events. cbn [log].
      now rewrite <- !app_assoc.
    + now constructor.
Qed.

Lemma turns_invocations (schema : str) (qs : list str)
    (evs : list (event DataFrame)) :
  turns schema qs evs -> invocations evs = map (format_prompt schema) qs.
Proof.
  induction 1 as [|question rest sql_query res ran evs _ _ IH];
    [reflexivity|].
  unfold turn_events. rewrite !invocations_app, IH.
  cbn [invocations app map].
  assert (Hran : invocations (map (@EvReadSql DataFrame) ran) = []).
  { clear. induction ran as [|r ran IHr]; [reflexivity|exact IHr]. }
  rewrite Hran. destruct res; reflexivity.
Qed.


(** C2: when the call of the model raises an exception, [process_question]
    returns no query ([None]) and, as its result, the message of the
    generation error; only the model was called, the executor was not, and
    the message is not that of an execution error. *)
Theorem generation_error_skips_executor (schema question : str)
    (s : sys St DataFrame) (e : exception) (st1 : St) :
  chain_llm w (format_prompt schema question) (ext s) = (Raises e, st1) ->
  exists s',
    process_question w schema question s
    = (Done (None, Message (lit "Error generating SQL with LLM: " ++ exc_str e)),
       s')
    /\ log s' = log s ++ [EvInvoke (format_prompt schema question)]
    /\ executions (log s') = executions (log s)
    /\ startswith (lit "Error generating SQL with LLM: " ++ exc_str e)
                  (lit "Error executing SQL: ") = false.
Proof.
  intros H. eexists. split.
  - exact (process_question_generation_error _ _ _ H).
  - cbn [log]. split; [reflexivity|]. split.
    + rewrite executions_app. cbn [executions]. now rewrite app_nil_r.
    + reflexivity.
Qed.

(** C3: when the model answers and the execution of the sanitized query
    raises an exception, [process_question] returns the query and, as its
    result, the message of the execution error; the loop then goes on with
    the questions that follow, ends normally, and has asked the model for
    this question and for every one after it. *)
Theorem execution_error_does_not_stop_the_loop (schema question : str)
    (rest : list str) (s : sys St DataFrame) (raw : str) (st1 : St)
    (e : exception) (st2 : St) :
  chain_llm w (format_prompt schema question) (ext s) = (Returns raw, st1) ->
  read_sql_query w (sanitize raw) st1 = (Raises e, st2) ->
  (exists s1,
     process_question w schema question s
     = (Done (Some (sanitize raw),
              Message (lit "Error executing SQL: " ++ exc_str e)), s1))
  /\ exists s2 s3,
       for_questions w schema (question :: rest) s
       = for_questions w schema rest s2
       /\ for_questions w schema rest s2 = (Done tt, s3)
       /\ invocations (log s3)
          = invocations (log s)
            ++ map (format_prompt schema) (question :: rest).
Proof.
  intros H1 H2.
  pose proof (process_question_execution_error _ _ _ H1 H2) as Hp.
  split; [eexists; exact Hp|].
  destruct (for_questions_turns schema (question :: rest) s)
    as (s3 & evs & Hrun & Hlog & Hturns).
  cbn [for_questions] in Hrun |- *.
  erewrite bind_done in Hrun |- * by exact Hp.
  erewrite bind_done in Hrun |- * by apply report_run.
  eexists. exists s3. split; [reflexivity|].
  split; [exact Hrun|].
  now rewrite Hlog, invocations_app, (turns_invocations Hturns).
Qed.


(** *** The steps of the set-up *)

Lemma read_sql_script_returns (s : sys St DataFrame) (sql_script : str) :
  open_read w chinook_sql_path = Returns sql_script ->
  read_sql_script w s = (Done sql_script, s).
Proof.
  intros H. unfold read_sql_script, try_except, call. now rewrite H.
Qed.





Lemma connect_database_returns (s : sys St DataFrame) (cursor : Cursor) :
  connect w (lit "Chinook.db") = Returns cursor ->
  connect_database w s = (Done cursor, s).
Proof.
  intros H. unfold connect_database, try_except, call_sqlite. now rewrite H.
Qed.




Ltac run_print := erewrite bind_done by apply print_run.



End ScriptFacts.

Lemma generation_error_skips_executor_witness :
  chain_llm Scenario.failing_llm_world
    (format_prompt (lit "table: Artist") (lit "List all customers in Canada."))
    (ext Scenario.start)
  = (Raises (Exc OtherException (lit "429 quota exceeded")), 1%nat)
  /\ exists s',
       process_question Scenario.failing_llm_world (lit "table: Artist")
         (lit "List all customers in Canada.") Scenario.start
       = (Done (None,
                Message (lit "Error generating SQL with LLM: "
                         ++ lit "429 quota exceeded")), s')
       /\ executions (log s') = [].
Proof.
  split; [reflexivity|].
  destruct (@generation_error_skips_executor nat Scenario.Table
              Scenario.failing_llm_world (lit "table: Artist")
              (lit "List all customers in Canada.") Scenario.start
              (Exc OtherException (lit "429 quota exceeded")) 1%nat eq_refl)
    as (s' & Hp & _ & He & _).
  exists s'. split; [exact Hp|exact He].
Defined.

Lemma execution_error_does_not_stop_the_loop_witness :
  chain_llm Scenario.bad_sql_world
    (format_prompt (lit "table: Artist") (lit "List all customers in Canada."))
    (ext Scenario.start)
  = (Returns (lit "SELECT * FROM Foo;"), 1%nat)
  /\ read_sql_query Scenario.bad_sql_world
       (sanitize (lit "SELECT * FROM Foo;")) 1%nat
     = (Raises (Exc OtherException (lit "no such table: Foo")), 2%nat)
  /\ exists s1,
       process_question Scenario.bad_sql_world (lit "table: Artist")
         (lit "List all customers in Canada.") Scenario.start
       = (Done (Some (sanitize (lit "SELECT * FROM Foo;")),
                Message (lit "Error executing SQL: "
                         ++ lit "no such table: Foo")), s1).
Proof.
  split; [reflexivity|]. split; [reflexivity|].
  exact (proj1 (@execution_error_does_not_stop_the_loop nat Scenario.Table
                  Scenario.bad_sql_world (lit "table: Artist")
                  (lit "List all customers in Canada.")
                  [lit "Which employees are sales agents?"] Scenario.start
                  (lit "SELECT * FROM Foo;") 1%nat
                  (Exc OtherException (lit "no such table: Foo")) 2%nat
                  eq_refl eq_refl)).
Defined.


(* ===================================================================== *)
(** * Runs of the whole script *)
(* ===================================================================== *)

Example of_Z_examples :
  of_Z 275 = lit "275" /\ of_Z 0 = lit "0" /\ of_Z (-5) = lit "-5".
Proof. repeat split. Qed.

(** With no seed file the script prints its banner and the error, and
    exits. *)
Example run_without_seed :
  main Scenario.no_seed_world Scenario.start
  = (SysExit 1,
     {| ext := O;
        log := [EvPrint (lit "1. Creating the Chinook database");
                EvPrint (lit "Error: SQL file not found at data/Chinook_Sqlite.sql.")] |}).
Proof. reflexivity. Qed.

(** In the good world the model is asked the seven questions in order, and
    each sanitized answer is executed. *)
Example run_good_world :
  fst (main Scenario.good_world Scenario.start) = Done tt
  /\ invocations (log (snd (main Scenario.good_world Scenario.start)))
     = map (format_prompt (display_schema tt Scenario.chinook_cursor)) questions
  /\ executions (log (snd (main Scenario.good_world Scenario.start)))
     = repeat (lit "SELECT 1;") 7.
Proof. vm_compute. repeat split. Qed.

(** When the model fails on every question, no query is ever executed and
    the loop still reports the seven questions. *)
Example run_failing_llm :
  fst (main Scenario.failing_llm_world Scenario.start) = Done tt
  /\ executions (log (snd (main Scenario.failing_llm_world Scenario.start))) = []
  /\ List.length
       (invocations (log (snd (main Scenario.failing_llm_world Scenario.start))))
     = 7%nat.
Proof. vm_compute. repeat split. Qed.

(* ===================================================================== *)
(** * More on the sanitizer *)
(* ===================================================================== *)

Lemma dropwhile_suffix (p : char -> bool) (s : str) :
  exists before, s = before ++ dropwhile p s.
Proof.
  induction s as [|c s [before IH]]; [now exists []|].
  simpl. destruct (p c).
  - exists (c :: before). simpl. now rewrite <- IH.
  - now exists [].
Qed.

Lemma strip_part (s : str) : exists before after, s = before ++ strip s ++ after.
Proof.
  unfold strip, rstrip, lstrip.
  destruct (dropwhile_suffix isspace s) as [before Hb].
  destruct (dropwhile_suffix isspace (rev (dropwhile isspace s))) as [tail Ht].
  exists before, (rev tail).
  rewrite <- rev_app_distr, <- Ht, rev_involutive. exact Hb.
Qed.

Lemma slice_part (s : str) (i j : Z) :
  exists before after, s = before ++ slice s i j ++ after.
Proof.
  unfold slice.
  set (lo := Z.to_nat (clamp (Z.of_nat (List.length s)) i)).
  set (n := Z.to_nat (clamp (Z.of_nat (List.length s)) j
                      - clamp (Z.of_nat (List.length s)) i)).
  exists (firstn lo s), (skipn n (skipn lo s)).
  now rewrite (firstn_skipn n (skipn lo s)), (firstn_skipn lo s).
Qed.

Lemma part_of_part (a b c : str) :
  (exists before after, b = before ++ a ++ after) ->
  (exists before after, c = before ++ b ++ after) ->
  exists before after, c = before ++ a ++ after.
Proof.
  intros (p1 & q1 & H1) (p2 & q2 & H2).
  exists (p2 ++ p1), (q1 ++ q2). subst. now rewrite <- !app_assoc.
Qed.

(** X1: the sanitized text is a contiguous part of the raw completion; the
    step only cuts at both ends, it never adds, drops from the middle or
    reorders characters. *)
Theorem sanitize_is_part_of_completion (raw : str) :
  exists before after, raw = before ++ sanitize raw ++ after.
Proof.
  unfold sanitize.
  apply part_of_part with (b := strip raw); [|apply strip_part].
  unfold strip_fences.
  destruct (truthy (strip raw) && startswith (strip raw) fence_sql
            && endswith (strip raw) fence).
  - apply part_of_part with (b := slice (strip raw) 6 (-3));
      [apply strip_part|apply slice_part].
  - destruct (truthy (strip raw) && startswith (strip raw) fence
              && endswith (strip raw) fence).
    + apply part_of_part with (b := slice (strip raw) 3 (-3));
        [apply strip_part|apply slice_part].
    + exists [], []. now rewrite app_nil_r.
Qed.

Lemma startswith_inv (s p : str) :
  startswith s p = true -> exists t, s = p ++ t.
Proof.
  revert s. induction p as [|x p IH]; intros s H.
  - now exists s.
  - destruct s as [|c s]; [discriminate|]. simpl in H.
    apply andb_true_iff in H as [Hc Hs]. apply N.eqb_eq in Hc. subst c.
    destruct (IH s Hs) as [t ->]. now exists t.
Qed.

(** A text that starts with the fence tagged [sql] and ends with the fence
    has the two apart: the closing fence lies behind the tag. *)
Lemma fence_sql_apart (s : str) :
  startswith s fence_sql = true -> endswith s fence = true ->
  exists body, s = fence_sql ++ body ++ fence.
Proof.
  intros Hs He.
  destruct (startswith_inv _ _ Hs) as [t ->].
  unfold endswith in He. rewrite rev_app_distr in He.
  destruct (rev t) as [|a [|b [|c r]]] eqn:Hr.
  - discriminate He.
  - cbn in He. rewrite !andb_false_r in He. discriminate He.
  - cbn in He. rewrite !andb_false_r in He. discriminate He.
  - cbn in He.
    apply andb_true_iff in He as [Ha He].
    apply andb_true_iff in He as [Hb He].
    apply andb_true_iff in He as [Hc _].
    apply N.eqb_eq in Ha, Hb, Hc. subst a b c.
    exists (rev r). f_equal.
    rewrite <- (rev_involutive t), Hr. cbn [rev]. now rewrite <- !app_assoc.
Qed.

(** X2: whenever the branch for the tag [sql] is taken, the trimmed
    completion really is the tagged fence, a body and the closing fence, and
    the step returns the trimmed body: the two fences cannot overlap. *)
Theorem sanitize_sql_branch (raw : str) :
  startswith (strip raw) fence_sql && endswith (strip raw) fence = true ->
  exists body,
    strip raw = fence_sql ++ body ++ fence /\ sanitize raw = strip body.
Proof.
  intros H. apply andb_true_iff in H as [Hs He].
  destruct (fence_sql_apart _ Hs He) as [body Hb].
  exists body. split; [exact Hb|].
  unfold sanitize. rewrite Hb. apply strip_fences_sql.
Qed.

Lemma sanitize_sql_branch_witness :
  startswith (strip (lit "```sql SELECT 1; ``` ")) fence_sql
  && endswith (strip (lit "```sql SELECT 1; ``` ")) fence = true
  /\ exists body,
       strip (lit "```sql SELECT 1; ``` ") = fence_sql ++ body ++ fence
       /\ sanitize (lit "```sql SELECT 1; ``` ") = strip body.
Proof.
  split; [reflexivity|].
  apply (sanitize_sql_branch (lit "```sql SELECT 1; ``` ")). reflexivity.
Defined.

(** X3: a trimmed completion of at most six characters that starts and ends
    with the fence (three to six backticks, the two fences sharing
    characters or touching) is sanitized to the empty text. *)
Theorem sanitize_touching_fences (raw : str) :
  startswith (strip raw) fence && endswith (strip raw) fence = true ->
  (List.length (strip raw) <= 6)%nat ->
  sanitize raw = [].
Proof.
  intros H Hlen. unfold sanitize.
  set (s := strip raw) in *.
  apply andb_true_iff in H as [Hs He].
  destruct (startswith_inv _ _ Hs) as [t Ht].
  assert (Hge : (3 <= List.length s)%nat)
    by (rewrite Ht, length_app; simpl; lia).
  assert (H3 : slice s 3 (-3) = []).
  { unfold slice, clamp. cbn [Z.ltb Z.compare].
    replace (Z.to_nat _) with 0%nat by lia. reflexivity. }
  assert (H6 : slice s 6 (-3) = []).
  { unfold slice, clamp. cbn [Z.ltb Z.compare].
    replace (Z.to_nat _) with 0%nat by lia. reflexivity. }
  unfold strip_fences. rewrite H3, H6, Hs, He.
  assert (Htr : truthy s = true) by (destruct s; [simpl in Hge; lia|reflexivity]).
  rewrite Htr. cbn [andb].
  destruct (startswith s fence_sql); reflexivity.
Qed.

Lemma sanitize_touching_fences_witness :
  startswith (strip (lit " ````` ")) fence && endswith (strip (lit " ````` ")) fence
  = true
  /\ (List.length (strip (lit " ````` ")) <= 6)%nat
  /\ sanitize (lit " ````` ") = [].
Proof.
  split; [reflexivity|]. split; [vm_compute; lia|].
  apply (sanitize_touching_fences (lit " ````` ")); [reflexivity|vm_compute; lia].
Defined.

(* ===================================================================== *)
(** * More on the schema introspector *)
(* ===================================================================== *)

(** The outer loop only ever appends to the text it was given. *)
Lemma add_tables_grows (cursor : Cursor) (tables : list str) (schema : str) :
  exists more, fst (add_tables cursor tables schema) = schema ++ more.
Proof.
  revert schema. induction tables as [|t tables IH]; intros schema.
  - exists []. simpl. now rewrite app_nil_r.
  - cbn [add_tables].
    destruct (fetch_columns cursor (pragma_sql t)) as [cols|e].
    + destruct (IH (add_columns cols (schema ++ table_header t) ++ newline))
        as [more Hm].
      rewrite Hm, add_columns_concat.
      eexists. rewrite <- !app_assoc. reflexivity.
    + exists (table_header t). reflexivity.
Qed.

Lemma add_tables_cons_nonempty (cursor : Cursor) (t : str) (tables : list str) :
  fst (add_tables cursor (t :: tables) []) <> [].
Proof.
  cbn [add_tables].
  destruct (fetch_columns cursor (pragma_sql t)) as [cols|e].
  - destruct (add_tables_grows cursor tables
                (add_columns cols ([] ++ table_header t) ++ newline))
      as [more Hm].
    rewrite Hm, add_columns_concat. discriminate.
  - discriminate.
Qed.

(** X4: the schema text is empty exactly when the list of tables is read and
    holds no table other than sqlite_sequence; a failure never gives an empty
    text, and a table always leaves at least its header. *)
Theorem display_schema_empty_iff (A : Type) (conn : A) (cursor : Cursor) :
  display_schema conn cursor = []
  <-> exists names,
        fetch_names cursor select_tables_sql = Returns names
        /\ user_tables names = [].
Proof.
  unfold display_schema. split.
  - destruct (fetch_names cursor select_tables_sql) as [names|e];
      [|discriminate].
    destruct (user_tables names) as [|t tables] eqn:Hu.
    + intros _. now exists names.
    + pose proof (add_tables_cons_nonempty cursor t tables) as Hne.
      destruct (add_tables cursor (t :: tables) []) as [schema [e|]];
        cbn [fst] in Hne; intros H.
      * apply app_eq_nil in H as [H _]. contradiction.
      * contradiction.
  - intros (names & Hn & Hu). now rewrite Hn, Hu.
Qed.

Lemma display_schema_empty_iff_witness :
  (exists names,
     fetch_names Scenario.empty_cursor select_tables_sql = Returns names
     /\ user_tables names = [])
  /\ display_schema tt Scenario.empty_cursor = [].
Proof.
  assert (H : exists names,
             fetch_names Scenario.empty_cursor select_tables_sql = Returns names
             /\ user_tables names = []).
  { exists [lit "sqlite_sequence"]. split; reflexivity. }
  split; [exact H|].
  exact (proj2 (@display_schema_empty_iff unit tt Scenario.empty_cursor) H).
Defined.

Lemma add_tables_same_answers (c1 c2 : Cursor) (tables : list str) (schema : str) :
  (forall t, In t tables ->
     fetch_columns c1 (pragma_sql t) = fetch_columns c2 (pragma_sql t)) ->
  add_tables c1 tables schema = add_tables c2 tables schema.
Proof.
  revert schema. induction tables as [|t tables IH]; intros schema H;
    [reflexivity|].
  cbn [add_tables]. rewrite <- (H t (or_introl eq_refl)).
  destruct (fetch_columns c1 (pragma_sql t)); [|reflexivity].
  apply IH. intros t' Ht'. apply H. now right.
Qed.

(** X5: the schema text depends on the database only through the list of
    table names and the [PRAGMA table_info] of the tables other than
    sqlite_sequence: two cursors that agree on these give the same text,
    whatever they answer elsewhere and whatever argument is passed. *)
Theorem display_schema_reads_user_tables_only (A B : Type) (a : A) (b : B)
    (c1 c2 : Cursor) (names : list str) :
  fetch_names c1 select_tables_sql = Returns names ->
  fetch_names c2 select_tables_sql = Returns names ->
  (forall t, In t (user_tables names) ->
     fetch_columns c1 (pragma_sql t) = fetch_columns c2 (pragma_sql t)) ->
  display_schema a c1 = display_schema b c2.
Proof.
  intros H1 H2 H. unfold display_schema.
  rewrite H1, H2. now rewrite (@add_tables_same_answers c1 c2 _ [] H).
Qed.

Lemma display_schema_reads_user_tables_only_witness :
  fetch_columns Scenario.chinook_cursor (pragma_sql (lit "sqlite_sequence"))
  <> fetch_columns Scenario.chinook_cursor_lenient
       (pragma_sql (lit "sqlite_sequence"))
  /\ display_schema tt Scenario.chinook_cursor
     = display_schema tt Scenario.chinook_cursor_lenient.
Proof.
  split; [discriminate|].
  apply (@display_schema_reads_user_tables_only unit unit tt tt
           Scenario.chinook_cursor Scenario.chinook_cursor_lenient
           [lit "Artist"; lit "sqlite_sequence"; lit "Album"]).
  - reflexivity.
  - reflexivity.
  - intros t [<-|[<-|[]]]; reflexivity.
Defined.

(** X6: the slice [schema[:1000]] printed on line 90 is the first 1000
    characters of the text, and the whole text when it has no more than
    1000; a short text is no error. *)
Theorem printed_schema_is_prefix (schema : str) :
  slice_to schema 1000 = firstn 1000 schema
  /\ ((List.length schema <= 1000)%nat -> slice_to schema 1000 = schema).
Proof.
  assert (H : slice_to schema 1000 = firstn 1000 schema).
  { unfold slice_to, slice, clamp. cbn [Z.ltb Z.compare].
    rewrite (Z.min_l 0) by lia. cbn [Z.to_nat]. rewrite skipn_O.
    rewrite Z.sub_0_r.
    destruct (Z.min_spec 1000 (Z.of_nat (List.length schema)))
      as [[Hlt ->]|[Hge ->]].
    - reflexivity.
    - rewrite Nat2Z.id, firstn_all. symmetry. apply firstn_all2. lia. }
  split; [exact H|].
  intros Hlen. rewrite H. now apply firstn_all2.
Qed.

Lemma printed_schema_is_prefix_witness :
  (List.length (display_schema tt Scenario.chinook_cursor) <= 1000)%nat
  /\ slice_to (display_schema tt Scenario.chinook_cursor) 1000
     = display_schema tt Scenario.chinook_cursor.
Proof.
  assert (H : (List.length (display_schema tt Scenario.chinook_cursor) <= 1000)%nat)
    by (vm_compute; lia).
  split; [exact H|].
  exact (proj2 (printed_schema_is_prefix
                  (display_schema tt Scenario.chinook_cursor)) H).
Defined.

(* ===================================================================== *)
(** * More on process_question and the loop *)
(* ===================================================================== *)

Section ScriptMore.

Variables St DataFrame : Type.
Variable w : World St DataFrame.

(** X7: in one call of [process_question] the model is asked exactly once,
    with the prompt built from the schema and the question; the executor is
    run exactly once, on the very query that is returned, when a query is
    returned, and not at all when none is. *)
Theorem process_question_calls (schema question : str) (s s' : sys St DataFrame)
    (sql_query : option str) (res : result DataFrame) :
  process_question w schema question s = (Done (sql_query, res), s') ->
  invocations (log s') = invocations (log s) ++ [format_prompt schema question]
  /\ executions (log s')
     = executions (log s)
       ++ match sql_query with Some q => [q] | None => [] end.
Proof.
  intros H.
  destruct (chain_llm w (format_prompt schema question) (ext s))
    as [[raw|e] st1] eqn:H1.
  - destruct (read_sql_query w (sanitize raw) st1) as [[df|e] st2] eqn:H2.
    + erewrite process_question_success in H by eassumption.
      injection H as <- <- <-. cbn [log].
      now rewrite invocations_app, executions_app.
    + erewrite process_question_execution_error in H by eassumption.
      injection H as <- <- <-. cbn [log].
      now rewrite invocations_app, executions_app.
  - erewrite process_question_generation_error in H by eassumption.
    injection H as <- <- <-. cbn [log].
    now rewrite invocations_app, executions_app.
Qed.

(** X8: a query that [process_question] returns has no white space at
    either end. *)
Theorem returned_query_is_trimmed (schema question : str)
    (s s' : sys St DataFrame) (q : str) (res : result DataFrame) :
  process_question w schema question s = (Done (Some q, res), s') ->
  strip q = q.
Proof.
  intros H.
  destruct (chain_llm w (format_prompt schema question) (ext s))
    as [[raw|e] st1] eqn:H1.
  - destruct (read_sql_query w (sanitize raw) st1) as [[df|e] st2] eqn:H2.
    + erewrite process_question_success in H by eassumption.
      injection H as <- _ _. apply strip_sanitize.
    + erewrite process_question_execution_error in H by eassumption.
      injection H as <- _ _. apply strip_sanitize.
  - erewrite process_question_generation_error in H by eassumption.
    discriminate H.
Qed.

(** X9: a completion made of white space only is not held back: the empty
    query is handed to the executor, and it is the executor's answer that
    becomes the result. *)
Theorem blank_completion_is_executed (schema question : str)
    (s : sys St DataFrame) (raw : str) (st1 : St) :
  chain_llm w (format_prompt schema question) (ext s) = (Returns raw, st1) ->
  strip raw = [] ->
  exists res s',
    process_question w schema question s = (Done (Some [], res), s')
    /\ executions (log s') = executions (log s) ++ [[]]
    /\ res = match fst (read_sql_query w [] st1) with
             | Returns df => Frame df
             | Raises e => Message (lit "Error executing SQL: " ++ exc_str e)
             end.
Proof.
  intros H1 Hb.
  assert (Hs : sanitize raw = []) by (unfold sanitize; now rewrite Hb).
  destruct (read_sql_query w (sanitize raw) st1) as [[df|e] st2] eqn:H2.
  - eexists. eexists. split.
    + erewrite process_question_success by eassumption.
      rewrite Hs. reflexivity.
    + cbn [log]. rewrite executions_app, Hs in *. rewrite H2.
      split; reflexivity.
  - eexists. eexists. split.
    + erewrite process_question_execution_error by eassumption.
      rewrite Hs. reflexivity.
    + cbn [log]. rewrite executions_app, Hs in *. rewrite H2.
      split; reflexivity.
Qed.

(** X10: after a failed generation the loop prints the question, the line
    [SQL Query: None], [Result:], the generation error and the separator,
    and goes on with the next question. *)
Theorem turn_after_generation_error (schema question : str) (rest : list str)
    (s : sys St DataFrame) (e : exception) (st1 : St) :
  chain_llm w (format_prompt schema question) (ext s) = (Raises e, st1) ->
  for_questions w schema (question :: rest) s
  = for_questions w schema rest
      {| ext := st1;
         log := log s
                ++ [EvInvoke (format_prompt schema question);
                    EvPrint (newline ++ lit "Question: " ++ question);
                    EvPrint (lit "SQL Query: None");
                    EvPrint (lit "Result:");
                    EvPrint (lit "Error generating SQL with LLM: " ++ exc_str e);
                    EvPrint (newline ++ repeat_str (lit "=") 100 ++ newline)] |}.
Proof.
  intros H. cbn [for_questions].
  erewrite bind_done by (apply process_question_generation_error; exact H).
  erewrite bind_done by apply report_run.
  unfold logged. cbn [fst snd ext log str_of_query].
  now rewrite <- app_assoc.
Qed.

(** X11: after a successful execution the loop prints the question and the
    sanitized query (not the raw completion), hands the DataFrame to
    [display] rather than to [print], and goes on. *)
Theorem turn_after_success (schema question : str) (rest : list str)
    (s : sys St DataFrame) (raw : str) (st1 : St) (df : DataFrame) (st2 : St) :
  chain_llm w (format_prompt schema question) (ext s) = (Returns raw, st1) ->
  read_sql_query w (sanitize raw) st1 = (Returns df, st2) ->
  for_questions w schema (question :: rest) s
  = for_questions w schema rest
      {| ext := st2;
         log := log s
                ++ [EvInvoke (format_prompt schema question);
                    EvReadSql (sanitize raw);
                    EvPrint (newline ++ lit "Question: " ++ question);
                    EvPrint (lit "SQL Query: " ++ sanitize raw);
                    EvPrint (lit "Result:");
                    EvDisplay df;
                    EvPrint (newline ++ repeat_str (lit "=") 100 ++ newline)] |}.
Proof.
  intros H1 H2. cbn [for_questions].
  erewrite bind_done by (eapply process_question_success; eassumption).
  erewrite bind_done by apply report_run.
  unfold logged. cbn [fst snd ext log str_of_query].
  now rewrite <- app_assoc.
Qed.

Lemma turns_executions (schema : str) (qs : list str)
    (evs : list (event DataFrame)) :
  turns schema qs evs ->
  (List.length (executions evs) <= List.length qs)%nat.
Proof.
  induction 1 as [|question rest sql_query res ran evs Hran _ IH];
    [simpl; lia|].
  unfold turn_events. rewrite !executions_app, !length_app.
  assert (Hr : executions (map (@EvReadSql DataFrame) ran) = ran).
  { clear. induction ran as [|r ran IHr]; [reflexivity|]. simpl. now rewrite IHr. }
  rewrite Hr. cbn [executions List.length].
  destruct res; cbn [executions List.length]; lia.
Qed.

(** X12: over any list of questions the loop asks the model exactly once per
    question, in the order of the list, and runs at most one query per
    question; nothing is retried. *)
Theorem loop_calls (schema : str) (qs : list str) (s s' : sys St DataFrame) :
  for_questions w schema qs s = (Done tt, s') ->
  invocations (log s') = invocations (log s) ++ map (format_prompt schema) qs
  /\ (List.length (executions (log s'))
      <= List.length (executions (log s)) + List.length qs)%nat.
Proof.
  intros H.
  destruct (for_questions_turns w schema qs s) as (s1 & evs & Hrun & Hlog & Ht).
  rewrite H in Hrun. injection Hrun as <-.
  rewrite Hlog, invocations_app, executions_app, length_app.
  rewrite (turns_invocations Ht).
  pose proof (turns_executions Ht). split; [reflexivity|lia].
Qed.

End ScriptMore.

(** X13: for a given schema the prompt determines the question, and for a
    given question it determines the schema: both are copied into the
    template unchanged. *)
Theorem format_prompt_injective (schema schema' question question' : str) :
  (format_prompt schema question = format_prompt schema question' ->
   question = question')
  /\ (format_prompt schema question = format_prompt schema' question ->
      schema = schema').
Proof.
  unfold format_prompt. split; intros H.
  - rewrite !app_assoc in H.
    repeat (apply app_inv_tail in H).
    rewrite <- !app_assoc in H.
    repeat (apply app_inv_head in H). exact H.
  - repeat (apply app_inv_head in H).
    rewrite !app_assoc in H.
    repeat (apply app_inv_tail in H). exact H.
Qed.

(* ===================================================================== *)
(** * More on the set-up *)
(* ===================================================================== *)

Section SetupMore.

Variables St DataFrame : Type.
Variable w : World St DataFrame.

Lemma read_sql_script_raises_log (s : sys St DataFrame) (e : exception) :
  open_read w chinook_sql_path = Raises e ->
  read_sql_script w s
  = (SysExit 1,
     logged s
       [EvPrint (if is_FileNotFoundError e
                 then lit "Error: SQL file not found at " ++ chinook_sql_path
                      ++ lit "."
                 else lit "Error reading SQL file: " ++ exc_str e)]).
Proof.
  intros H. unfold read_sql_script, try_except, call. rewrite H.
  rewrite is_Exception_all, orb_true_r.
  now destruct (is_FileNotFoundError e).
Qed.

Lemma load_database_returns_log (s : sys St DataFrame) (sql_script : str)
    (u : unit) :
  executescript w db_path sql_script = Returns u ->
  load_database w sql_script s
  = (Done tt,
     logged s
       [EvPrint (lit "Chinook database schema and data loaded using sqlite3.")]).
Proof.
  intros H. unfold load_database, try_except, bind, call_sqlite. now rewrite H.
Qed.

Lemma load_database_raises_log (s : sys St DataFrame) (sql_script : str)
    (e : sqlite3_Error) :
  executescript w db_path sql_script = Raises e ->
  load_database w sql_script s
  = (SysExit 1,
     logged s [EvPrint (lit "Error creating/loading database: " ++ e)]).
Proof.
  intros H. unfold load_database, try_except, bind, call_sqlite. now rewrite H.
Qed.

Lemma check_artist_log (s : sys St DataFrame) :
  check_artist w s
  = (Done tt,
     logged s
       [EvPrint match count_artist w db_path with
                | Returns n =>
                    lit "Number of rows in Artist table:" ++ lit " " ++ of_Z n
                | Raises e => lit "Error checking Artist table: " ++ e
                end]).
Proof.
  unfold check_artist, try_except, bind, call_sqlite.
  now destruct (count_artist w db_path).
Qed.

Lemma connect_database_raises_log (s : sys St DataFrame) (e : sqlite3_Error) :
  connect w (lit "Chinook.db") = Raises e ->
  connect_database w s
  = (SysExit 1, logged s [EvPrint (lit "Error connecting to database: " ++ e)]).
Proof.
  intros H. unfold connect_database, try_except, call_sqlite. now rewrite H.
Qed.

Lemma load_api_key_present_log (s : sys St DataFrame) (key : str) :
  getenv w (lit "GOOGLE-API-KEY") = Some key -> truthy key = true ->
  load_api_key w s = (Done tt, logged s [EvSetEnv (lit "GOOGLE_API_KEY") key]).
Proof.
  intros H Hk. unfold load_api_key, try_except, bind.
  rewrite H. cbn [not_api_key]. now rewrite Hk.
Qed.

Lemma load_api_key_missing_log (s : sys St DataFrame) :
  not_api_key (getenv w (lit "GOOGLE-API-KEY")) = true ->
  load_api_key w s
  = (SysExit 1,
     logged s
       [EvPrint (lit "Error loading API key: "
                 ++ lit "GOOGLE-API-KEY not found in .env file.")]).
Proof.
  intros H. unfold load_api_key, try_except, bind. now rewrite H.
Qed.

(** X14: when the seed file cannot be read the script prints its first
    banner and one error line, and exits with status 1.  For a file that is
    not found the line names the path and not the exception; for any other
    failure it shows the exception. *)
Theorem seed_failure_report (s : sys St DataFrame) (e : exception) :
  open_read w chinook_sql_path = Raises e ->
  main w s
  = (SysExit 1,
     {| ext := ext s;
        log := log s
               ++ [EvPrint (lit "1. Creating the Chinook database");
                   EvPrint
                     (if is_FileNotFoundError e
                      then lit "Error: SQL file not found at data/Chinook_Sqlite.sql."
                      else lit "Error reading SQL file: " ++ exc_str e)] |}).
Proof.
  intros H. unfold main.
  erewrite bind_done by apply print_run.
  erewrite bind_exit by (apply read_sql_script_raises_log; exact H).
  unfold logged. cbn [ext log]. rewrite <- app_assoc.
  now destruct (is_FileNotFoundError e).
Qed.

Ltac run_print := erewrite bind_done by apply print_run.

(** X15: when the seed file, the load and the connection are fine and the
    key is absent or empty, the script has already printed the schema; it
    then prints the same error line in both cases and exits with status 1
    without having exported a key. *)
Theorem missing_key_report (s : sys St DataFrame) (sql_script : str) (u : unit)
    (cursor : Cursor) :
  open_read w chinook_sql_path = Returns sql_script ->
  executescript w db_path sql_script = Returns u ->
  connect w (lit "Chinook.db") = Returns cursor ->
  not_api_key (getenv w (lit "GOOGLE-API-KEY")) = true ->
  main w s
  = (SysExit 1,
     {| ext := ext s;
        log := log s
               ++ [EvPrint (lit "1. Creating the Chinook database");
                   EvPrint (lit "Chinook database schema and data loaded using sqlite3.");
                   EvPrint match count_artist w db_path with
                           | Returns n =>
                               lit "Number of rows in Artist table:" ++ lit " "
                               ++ of_Z n
                           | Raises e => lit "Error checking Artist table: " ++ e
                           end;
                   EvPrint (lit " -> Chinook database created successfully.");
                   EvPrint rule;
                   EvPrint (lit "2. Connect to the SQLite database and display schema");
                   EvPrint (slice_to (display_schema cursor cursor) 1000);
                   EvPrint rule;
                   EvPrint (lit "3. Creating a prompt template for the LLM");
                   EvPrint (lit "Error loading API key: GOOGLE-API-KEY not found in .env file.")] |}).
Proof.
  intros Ho Hl Hc Hk. unfold main.
  run_print.
  erewrite bind_done by (apply read_sql_script_returns; exact Ho).
  erewrite bind_done by (eapply load_database_returns_log; exact Hl).
  erewrite bind_done by apply check_artist_log.
  do 3 run_print.
  erewrite bind_done by (apply connect_database_returns; exact Hc).
  cbv beta zeta.
  do 3 run_print.
  erewrite bind_exit by (apply load_api_key_missing_log; exact Hk).
  unfold logged. cbn [ext log]. now rewrite <- !app_assoc.
Qed.

(** X16: when every step of the set-up works, the console shows the banners
    in order, the count of Artist or the error of that check (which is not
    fatal), the first 1000 characters of the schema; the key read from
    GOOGLE-API-KEY is exported as GOOGLE_API_KEY before the first question;
    then come the turns of the questions, with the whole schema in the
    prompts. *)
Theorem run_with_working_setup (s : sys St DataFrame) (sql_script : str)
    (u : unit) (cursor : Cursor) (key : str) :
  open_read w chinook_sql_path = Returns sql_script ->
  executescript w db_path sql_script = Returns u ->
  connect w (lit "Chinook.db") = Returns cursor ->
  getenv w (lit "GOOGLE-API-KEY") = Some key ->
  truthy key = true ->
  exists s' evs,
    main w s = (Done tt, s')
    /\ turns (display_schema cursor cursor) questions evs
    /\ log s'
       = log s
         ++ [EvPrint (lit "1. Creating the Chinook database");
             EvPrint (lit "Chinook database schema and data loaded using sqlite3.");
             EvPrint match count_artist w db_path with
                     | Returns n =>
                         lit "Number of rows in Artist table:" ++ lit " "
                         ++ of_Z n
                     | Raises e => lit "Error checking Artist table: " ++ e
                     end;
             EvPrint (lit " -> Chinook database created successfully.");
             EvPrint rule;
             EvPrint (lit "2. Connect to the SQLite database and display schema");
             EvPrint (slice_to (display_schema cursor cursor) 1000);
             EvPrint rule;
             EvPrint (lit "3. Creating a prompt template for the LLM");
             EvSetEnv (lit "GOOGLE_API_KEY") key;
             EvPrint (lit " -> Prompt template created successfully.");
             EvPrint rule;
             EvPrint (lit "4. Prompting the AI agent");
             EvPrint (lit " -> prompt carried out successfully .");
             EvPrint rule;
             EvPrint (lit "5. Parsing the LLM SQL Output and Execute it");
             EvPrint (lit " -> SQL query and result processing function ready.");
             EvPrint rule;
             EvPrint (lit "6. Testing with few questions")]
         ++ evs.
Proof.
  intros Ho Hl Hc Hg Hk. unfold main.
  run_print.
  erewrite bind_done by (apply read_sql_script_returns; exact Ho).
  erewrite bind_done by (eapply load_database_returns_log; exact Hl).
  erewrite bind_done by apply check_artist_log.
  do 3 run_print.
  erewrite bind_done by (apply connect_database_returns; exact Hc).
  cbv beta zeta.
  do 3 run_print.
  erewrite bind_done by (apply load_api_key_present_log; eassumption).
  do 9 run_print.
  match goal with
  | |- exists _ _, for_questions _ ?schema _ ?s0 = _ /\ _ =>
      destruct (for_questions_turns w schema questions s0)
        as (s' & evs & Hrun & Hlog & Hturns)
  end.
  exists s', evs. split; [exact Hrun|]. split; [exact Hturns|].
  rewrite Hlog. unfold logged. cbn [ext log]. now rewrite <- !app_assoc.
Qed.


End SetupMore.

(* ===================================================================== *)
(** * The further properties on concrete runs *)
(* ===================================================================== *)

Lemma process_question_calls_witness :
  process_question Scenario.good_world Scenario.schema1 Scenario.question1
    Scenario.start
  = (Done (Some (lit "SELECT 1;"), Frame [[lit "1"]]),
     snd (process_question Scenario.good_world Scenario.schema1
            Scenario.question1 Scenario.start))
  /\ invocations
       (log (snd (process_question Scenario.good_world Scenario.schema1
                    Scenario.question1 Scenario.start)))
     = [format_prompt Scenario.schema1 Scenario.question1]
  /\ executions
       (log (snd (process_question Scenario.good_world Scenario.schema1
                    Scenario.question1 Scenario.start)))
     = [lit "SELECT 1;"].
Proof.
  split; [reflexivity|].
  exact (@process_question_calls nat Scenario.Table Scenario.good_world
           Scenario.schema1 Scenario.question1 Scenario.start _ _ _ eq_refl).
Defined.

Lemma returned_query_is_trimmed_witness :
  process_question Scenario.good_world Scenario.schema1 Scenario.question1
    Scenario.start
  = (Done (Some (lit "SELECT 1;"), Frame [[lit "1"]]),
     snd (process_question Scenario.good_world Scenario.schema1
            Scenario.question1 Scenario.start))
  /\ strip (lit "SELECT 1;") = lit "SELECT 1;".
Proof.
  split; [reflexivity|].
  exact (@returned_query_is_trimmed nat Scenario.Table Scenario.good_world
           Scenario.schema1 Scenario.question1 Scenario.start _ _ _ eq_refl).
Defined.

Lemma blank_completion_is_executed_witness :
  chain_llm Scenario.blank_world
    (format_prompt Scenario.schema1 Scenario.question1) (ext Scenario.start)
  = (Returns (lit "  " ++ newline), 1%nat)
  /\ strip (lit "  " ++ newline) = []
  /\ exists res s',
       process_question Scenario.blank_world Scenario.schema1
         Scenario.question1 Scenario.start
       = (Done (Some [], res), s')
       /\ executions (log s') = [[]].
Proof.
  split; [reflexivity|]. split; [reflexivity|].
  destruct (@blank_completion_is_executed nat Scenario.Table
              Scenario.blank_world Scenario.schema1 Scenario.question1
              Scenario.start (lit "  " ++ newline) 1%nat eq_refl eq_refl)
    as (res & s' & Hp & He & _).
  exists res, s'. split; [exact Hp|exact He].
Defined.

Lemma turn_after_generation_error_witness :
  chain_llm Scenario.failing_llm_world
    (format_prompt Scenario.schema1 Scenario.question1) (ext Scenario.start)
  = (Raises (Exc OtherException (lit "429 quota exceeded")), 1%nat)
  /\ for_questions Scenario.failing_llm_world Scenario.schema1
       [Scenario.question1] Scenario.start
     = (Done tt,
        {| ext := 1%nat;
           log := [EvInvoke (format_prompt Scenario.schema1 Scenario.question1);
                   EvPrint (newline ++ lit "Question: " ++ Scenario.question1);
                   EvPrint (lit "SQL Query: None");
                   EvPrint (lit "Result:");
                   EvPrint (lit "Error generating SQL with LLM: 429 quota exceeded");
                   EvPrint (newline ++ repeat_str (lit "=") 100 ++ newline)] |}).
Proof.
  split; [reflexivity|].
  exact (@turn_after_generation_error nat Scenario.Table
           Scenario.failing_llm_world Scenario.schema1 Scenario.question1 []
           Scenario.start (Exc OtherException (lit "429 quota exceeded"))
           1%nat eq_refl).
Defined.

Lemma turn_after_success_witness :
  chain_llm Scenario.good_world
    (format_prompt Scenario.schema1 Scenario.question1) (ext Scenario.start)
  = (Returns (lit "```sql" ++ newline ++ lit "SELECT 1;" ++ newline ++ lit "```"),
     1%nat)
  /\ read_sql_query Scenario.good_world (lit "SELECT 1;") 1%nat
     = (Returns [[lit "1"]], 2%nat)
  /\ for_questions Scenario.good_world Scenario.schema1 [Scenario.question1]
       Scenario.start
     = (Done tt,
        {| ext := 2%nat;
           log := [EvInvoke (format_prompt Scenario.schema1 Scenario.question1);
                   EvReadSql (lit "SELECT 1;");
                   EvPrint (newline ++ lit "Question: " ++ Scenario.question1);
                   EvPrint (lit "SQL Query: SELECT 1;");
                   EvPrint (lit "Result:");
                   EvDisplay [[lit "1"]];
                   EvPrint (newline ++ repeat_str (lit "=") 100 ++ newline)] |}).
Proof.
  split; [reflexivity|]. split; [reflexivity|].
  exact (@turn_after_success nat Scenario.Table Scenario.good_world
           Scenario.schema1 Scenario.question1 [] Scenario.start
           (lit "```sql" ++ newline ++ lit "SELECT 1;" ++ newline ++ lit "```")
           1%nat [[lit "1"]] 2%nat eq_refl eq_refl).
Defined.

Lemma loop_calls_witness :
  for_questions Scenario.bad_sql_world Scenario.schema1 questions Scenario.start
  = (Done tt,
     snd (for_questions Scenario.bad_sql_world Scenario.schema1 questions
            Scenario.start))
  /\ invocations
       (log (snd (for_questions Scenario.bad_sql_world Scenario.schema1
                    questions Scenario.start)))
     = map (format_prompt Scenario.schema1) questions.
Proof.
  split; [vm_compute; reflexivity|].
  exact (proj1 (@loop_calls nat Scenario.Table Scenario.bad_sql_world
                  Scenario.schema1 questions Scenario.start _
                  ltac:(vm_compute; reflexivity))).
Defined.

Lemma format_prompt_injective_witness :
  format_prompt Scenario.schema1 Scenario.question1
  = format_prompt Scenario.schema1 Scenario.question1
  /\ Scenario.question1 = Scenario.question1.
Proof.
  split; [reflexivity|].
  exact (proj1 (format_prompt_injective Scenario.schema1 Scenario.schema1
                  Scenario.question1 Scenario.question1) eq_refl).
Defined.

Lemma seed_failure_report_witness :
  open_read Scenario.no_seed_world chinook_sql_path
  = Raises (Exc FileNotFoundError (lit "No such file or directory"))
  /\ main Scenario.no_seed_world Scenario.start
     = (SysExit 1,
        {| ext := O;
           log := [EvPrint (lit "1. Creating the Chinook database");
                   EvPrint (lit "Error: SQL file not found at data/Chinook_Sqlite.sql.")] |}).
Proof.
  split; [reflexivity|].
  exact (@seed_failure_report nat Scenario.Table Scenario.no_seed_world
           Scenario.start
           (Exc FileNotFoundError (lit "No such file or directory")) eq_refl).
Defined.

Lemma missing_key_report_witness :
  not_api_key (getenv Scenario.empty_key_world (lit "GOOGLE-API-KEY")) = true
  /\ exists s',
       main Scenario.empty_key_world Scenario.start = (SysExit 1, s')
       /\ In (EvPrint (lit "Error checking Artist table: no such table: Artist"))
             (log s')
       /\ In (EvPrint (lit "Error loading API key: GOOGLE-API-KEY not found in .env file."))
             (log s').
Proof.
  split; [reflexivity|].
  eexists. split.
  - exact (@missing_key_report nat Scenario.Table Scenario.empty_key_world
             Scenario.start _ tt Scenario.chinook_cursor
             eq_refl eq_refl eq_refl eq_refl).
  - cbn [log app]. split.
    + do 2 right. left. reflexivity.
    + do 9 right. left. reflexivity.
Defined.

Lemma run_with_working_setup_witness :
  getenv Scenario.good_world (lit "GOOGLE-API-KEY") = Some (lit "secret")
  /\ exists s' (evs : list (event Scenario.Table)),
       main Scenario.good_world Scenario.start = (Done tt, s')
       /\ turns (display_schema Scenario.chinook_cursor Scenario.chinook_cursor)
                questions evs.
Proof.
  split; [reflexivity|].
  destruct (@run_with_working_setup nat Scenario.Table Scenario.good_world
              Scenario.start _ tt Scenario.chinook_cursor (lit "secret")
              eq_refl eq_refl eq_refl eq_refl eq_refl)
    as (s' & evs & Hrun & Hturns & _).
  exists s', evs. split; [exact Hrun|exact Hturns].
Defined.


(* ===================================================================== *)
(** * The other two fatal steps, and the text of the schema *)
(* ===================================================================== *)

Section SetupReports.

Variables St DataFrame : Type.
Variable w : World St DataFrame.

(** X18: when the seed script is read and its load raises a
    [sqlite3.Error], the script prints the banner and the line
    [Error creating/loading database: ...] with the message of the error, and
    exits with status 1; the line that announces the load is not printed. *)
Theorem load_failure_report (s : sys St DataFrame) (sql_script : str)
    (e : sqlite3_Error) :
  open_read w chinook_sql_path = Returns sql_script ->
  executescript w db_path sql_script = Raises e ->
  main w s
  = (SysExit 1,
     {| ext := ext s;
        log := log s
               ++ [EvPrint (lit "1. Creating the Chinook database");
                   EvPrint (lit "Error creating/loading database: " ++ e)] |}).
Proof.
  intros Ho Hl. unfold main.
  erewrite bind_done by apply print_run.
  erewrite bind_done by (apply read_sql_script_returns; exact Ho).
  erewrite bind_exit by (apply load_database_raises_log; exact Hl).
  unfold logged. cbn [ext log]. now rewrite <- app_assoc.
Qed.

(** X19: when the load went through and the connection of line 61 raises a
    [sqlite3.Error], the script has reported the load and the check on
    Artist, prints [Error connecting to database: ...] and exits with
    status 1 before any schema is read. *)
Theorem connection_failure_report (s : sys St DataFrame) (sql_script : str)
    (u : unit) (e : sqlite3_Error) :
  open_read w chinook_sql_path = Returns sql_script ->
  executescript w db_path sql_script = Returns u ->
  connect w (lit "Chinook.db") = Raises e ->
  main w s
  = (SysExit 1,
     {| ext := ext s;
        log := log s
               ++ [EvPrint (lit "1. Creating the Chinook database");
                   EvPrint (lit "Chinook database schema and data loaded using sqlite3.");
                   EvPrint match count_artist w db_path with
                           | Returns n =>
                               lit "Number of rows in Artist table:" ++ lit " "
                               ++ of_Z n
                           | Raises e' => lit "Error checking Artist table: " ++ e'
                           end;
                   EvPrint (lit " -> Chinook database created successfully.");
                   EvPrint rule;
                   EvPrint (lit "2. Connect to the SQLite database and display schema");
                   EvPrint (lit "Error connecting to database: " ++ e)] |}).
Proof.
  intros Ho Hl Hc. unfold main.
  erewrite bind_done by apply print_run.
  erewrite bind_done by (apply read_sql_script_returns; exact Ho).
  erewrite bind_done by (eapply load_database_returns_log; exact Hl).
  erewrite bind_done by apply check_artist_log.
  do 3 (erewrite bind_done by apply print_run).
  erewrite bind_exit by (apply connect_database_raises_log; exact Hc).
  unfold logged. cbn [ext log]. now rewrite <- !app_assoc.
Qed.

End SetupReports.

(** X20: when the list of tables and every [PRAGMA table_info] are
    answered, the schema text is, for each table other than sqlite_sequence
    in the order of the list, the line [table: name], the line [Columns:],
    one line [  - name (type)] per column in the order of the answer, and an
    empty line. *)
Theorem display_schema_text (A : Type) (conn : A) (cursor : Cursor)
    (names : list str) (columns : list (list column_row)) :
  fetch_names cursor select_tables_sql = Returns names ->
  Forall2 (fun t cols => fetch_columns cursor (pragma_sql t) = Returns cols)
          (user_tables names) columns ->
  display_schema conn cursor
  = List.concat
      (map (fun tc =>
              lit "table: " ++ fst tc ++ newline ++ lit "Columns:" ++ newline
              ++ List.concat
                   (map (fun c => lit "  - " ++ col_name c ++ lit " ("
                                  ++ col_type c ++ lit ")" ++ newline)
                        (snd tc))
              ++ newline)
           (combine (user_tables names) columns)).
Proof.
  intros Hn Hc.
  rewrite display_schema_all with (names := names) (columns := columns)
    by assumption.
  f_equal. apply map_ext. intros [t cols].
  unfold table_block, table_header. cbn [fst snd].
  now rewrite <- !app_assoc.
Qed.

Lemma display_schema_text_witness :
  fetch_names Scenario.chinook_cursor select_tables_sql
  = Returns [lit "Artist"; lit "sqlite_sequence"; lit "Album"]
  /\ display_schema tt Scenario.chinook_cursor
     = lit "table: Artist" ++ newline ++ lit "Columns:" ++ newline
       ++ lit "  - ArtistId (INTEGER)" ++ newline
       ++ lit "  - Name (NVARCHAR(120))" ++ newline
       ++ newline
       ++ lit "table: Album" ++ newline ++ lit "Columns:" ++ newline
       ++ lit "  - AlbumId (INTEGER)" ++ newline
       ++ lit "  - Title (NVARCHAR(160))" ++ newline
       ++ lit "  - ArtistId (INTEGER)" ++ newline
       ++ newline.
Proof.
  split; [reflexivity|].
  rewrite (@display_schema_text unit tt Scenario.chinook_cursor
             [lit "Artist"; lit "sqlite_sequence"; lit "Album"]
             [Scenario.chinook_columns (lit "Artist");
              Scenario.chinook_columns (lit "Album")]
             eq_refl
             ltac:(repeat constructor)).
  reflexivity.
Defined.

Lemma load_failure_report_witness :
  executescript Scenario.bad_load_world db_path
    (lit "CREATE TABLE Artist (ArtistId INTEGER);")
  = Raises (lit "table Artist already exists")
  /\ main Scenario.bad_load_world Scenario.start
     = (SysExit 1,
        {| ext := O;
           log := [EvPrint (lit "1. Creating the Chinook database");
                   EvPrint (lit "Error creating/loading database: table Artist already exists")] |}).
Proof.
  split; [reflexivity|].
  exact (@load_failure_report nat Scenario.Table Scenario.bad_load_world
           Scenario.start _ (lit "table Artist already exists")
           eq_refl eq_refl).
Defined.

Lemma connection_failure_report_witness :
  connect Scenario.no_connection_world (lit "Chinook.db")
  = Raises (lit "unable to open database file")
  /\ exists s',
       main Scenario.no_connection_world Scenario.start = (SysExit 1, s')
       /\ In (EvPrint (lit "Error connecting to database: unable to open database file"))
             (log s').
Proof.
  split; [reflexivity|].
  eexists. split.
  - exact (@connection_failure_report nat Scenario.Table
             Scenario.no_connection_world Scenario.start _ tt
             (lit "unable to open database file") eq_refl eq_refl eq_refl).
  - cbn [log app]. do 6 right. left. reflexivity.
Defined.

(* ===================================================================== *)
(** * Texts that are not wrapped in two fences *)
(* ===================================================================== *)

(** A text that starts with the fence and ends with the fence is a run of
    three, four or five backticks, where the two share characters, or it is
    an opening fence, a body and a closing fence. *)
Lemma fence_shapes (s : str) :
  startswith s fence = true -> endswith s fence = true ->
  s = lit "```" \/ s = lit "````" \/ s = lit "`````"
  \/ exists body, s = fence ++ body ++ fence.
Proof.
  intros Hs He.
  destruct (startswith_inv _ _ Hs) as [t ->].
  unfold endswith in He. rewrite rev_app_distr in He.
  assert (Ht : t = rev (rev t)) by (now rewrite rev_involutive).
  destruct (rev t) as [|a [|b [|c r]]].
  - left. now rewrite Ht.
  - right. left. cbn in He.
    apply andb_true_iff in He as [Ha _]. apply N.eqb_eq in Ha. subst a.
    now rewrite Ht.
  - right. right. left. cbn in He.
    apply andb_true_iff in He as [Ha He].
    apply andb_true_iff in He as [Hb _].
    apply N.eqb_eq in Ha, Hb. subst a b. now rewrite Ht.
  - right. right. right. cbn in He.
    apply andb_true_iff in He as [Ha He].
    apply andb_true_iff in He as [Hb He].
    apply andb_true_iff in He as [Hc _].
    apply N.eqb_eq in Ha, Hb, Hc. subst a b c.
    exists (rev r). rewrite Ht. cbn [rev]. now rewrite <- !app_assoc.
Qed.

(** C5 (as amended): a trimmed completion that is not an opening fence, a
    body and a closing fence, and that is not a run of three, four or five
    backticks alone, is returned by the sanitization step as it is, trimmed
    and nothing else; this covers every text with no fence and every text
    that has a leading fence followed by anything but a closing fence. *)
Theorem sanitize_not_wrapped (raw : str) :
  (forall body, strip raw <> fence ++ body ++ fence) ->
  strip raw <> lit "```" ->
  strip raw <> lit "````" ->
  strip raw <> lit "`````" ->
  sanitize raw = strip raw.
Proof.
  intros Hw H3 H4 H5. unfold sanitize. apply strip_fences_unfenced.
  destruct (startswith (strip raw) fence) eqn:Hs; [|reflexivity].
  destruct (endswith (strip raw) fence) eqn:He; [|reflexivity].
  destruct (fence_shapes _ Hs He) as [H|[H|[H|[body H]]]].
  - contradiction.
  - contradiction.
  - contradiction.
  - now apply Hw in H.
Qed.

Lemma sanitize_not_wrapped_witness :
  (forall body,
     strip (lit " ```sql" ++ newline ++ lit "SELECT 1; ")
     <> fence ++ body ++ fence)
  /\ strip (lit " ```sql" ++ newline ++ lit "SELECT 1; ") <> lit "```"
  /\ strip (lit " ```sql" ++ newline ++ lit "SELECT 1; ") <> lit "````"
  /\ strip (lit " ```sql" ++ newline ++ lit "SELECT 1; ") <> lit "`````"
  /\ sanitize (lit " ```sql" ++ newline ++ lit "SELECT 1; ")
     = lit "```sql" ++ newline ++ lit "SELECT 1;".
Proof.
  assert (Hw : forall body,
             strip (lit " ```sql" ++ newline ++ lit "SELECT 1; ")
             <> fence ++ body ++ fence).
  { intros body H.
    assert (E : endswith (strip (lit " ```sql" ++ newline ++ lit "SELECT 1; "))
                  fence = true)
      by (rewrite H; apply endswith_fence).
    vm_compute in E. discriminate E. }
  split; [exact Hw|].
  split; [discriminate|]. split; [discriminate|]. split; [discriminate|].
  rewrite (sanitize_not_wrapped
             (lit " ```sql" ++ newline ++ lit "SELECT 1; ") Hw);
    [reflexivity|discriminate|discriminate|discriminate].
Defined.

(** C5 fails on a completion that is one fence and nothing else: it is not
    an opening fence, a body and a closing fence, it has a leading fence
    only, and the sanitization step returns the empty text instead of the
    trimmed text. *)
Lemma sanitize_lone_fence :
  strip (lit "```") = lit "```"
  /\ (forall body, lit "```" <> fence ++ body ++ fence)
  /\ startswith (lit "```") fence = true
  /\ sanitize (lit "```") = []
  /\ sanitize (lit "```") <> strip (lit "```").
Proof.
  split; [reflexivity|]. split.
  - intros body H. apply (f_equal (@List.length char)) in H.
    rewrite !length_app in H. simpl in H. lia.
  - split; [reflexivity|]. split; [reflexivity|discriminate].
Qed.

(* ===================================================================== *)
(** * Where the count of the schema lines departs from the tables *)
(* ===================================================================== *)

(** C4 fails in three ways, each on a database whose metadata queries are all
    answered.  (1) A line feed inside a column name: one table, two lines
    that start with "table:".  (2) An internal table other than
    sqlite_sequence: after ANALYZE there is one user table, and sqlite_stat1
    gets a header too.  (3) Names that the unquoted [PRAGMA] of line 81 does
    not resolve to their table: the three tables have six columns, the text
    has four column lines. *)
Lemma display_schema_miscounts :
  (fetch_names Scenario.odd_cursor select_tables_sql = Returns [lit "T"]
   /\ spec_user_tables [lit "T"] = [lit "T"]
   /\ fetch_columns Scenario.odd_cursor (pragma_sql (lit "T"))
      = Returns [Scenario.odd_column]
   /\ count_lines is_table_header (display_schema tt Scenario.odd_cursor)
      = 2%nat
   /\ count_lines is_table_header (display_schema tt Scenario.odd_cursor)
      <> List.length (spec_user_tables [lit "T"]))
  /\ (fetch_names Scenario.analyzed_cursor select_tables_sql
      = Returns [lit "Artist"; lit "sqlite_stat1"]
      /\ spec_user_tables [lit "Artist"; lit "sqlite_stat1"] = [lit "Artist"]
      /\ forallb single_line [lit "Artist"; lit "sqlite_stat1"] = true
      /\ count_lines is_table_header
           (display_schema tt Scenario.analyzed_cursor)
         = 2%nat
      /\ count_lines is_table_header
           (display_schema tt Scenario.analyzed_cursor)
         <> List.length (spec_user_tables [lit "Artist"; lit "sqlite_stat1"]))
  /\ (fetch_names Scenario.quoted_cursor select_tables_sql
      = Returns (map fst Scenario.quoted_catalog)
      /\ spec_user_tables (map fst Scenario.quoted_catalog)
         = map fst Scenario.quoted_catalog
      /\ forallb single_line (map fst Scenario.quoted_catalog) = true
      /\ catalog_columns Scenario.quoted_catalog = 6%nat
      /\ count_lines is_table_header (display_schema tt Scenario.quoted_cursor)
         = 3%nat
      /\ count_lines is_column_line (display_schema tt Scenario.quoted_cursor)
         = 4%nat
      /\ count_lines is_column_line (display_schema tt Scenario.quoted_cursor)
         <> catalog_columns Scenario.quoted_catalog).
Proof.
  repeat split; discriminate.
Qed.
